(** * File domain core: value objects, entity and lifecycle

    A shallow embedding of the domain layer of the file service
    (errors, [FileLocation], [FileMetadata], [FileStatus], [File]) and the
    proofs of its validation and lifecycle properties.

    Conventions of the embedding.
    - A JavaScript string is the list of its UTF-16 code units; [length],
      [trim], [includes], [startsWith] and [===] work on code units, as the
      language defines them.
    - A JavaScript number is an IEEE 754 double, Rocq's primitive
      [float]: [<=], [<] and [>] are the comparisons of the standard,
      false whenever an operand is NaN.
    - [toLowerCase], the case mapping of the language, is a parameter of
      the one function that calls it.
    - A [Date] is its time value, milliseconds since the epoch.
    - A constructor or method that can [throw] returns a [completion]; a
      method of the mutable entity also returns the object's state after
      the call, whether it returned or threw.
    - An argument that may be [null] or [undefined] is a [reference];
      reading a property of an absent value ends the call in a
      [TypeError]. *)

From Stdlib Require Import ZArith NArith List Bool Ascii String Lia.
From Stdlib Require Import Floats.
Import ListNotations.

Set Implicit Arguments.

(** ** JavaScript numbers and strings *)

Module JS.

(** A number is a double. [x <= y] and [x > y] are false as soon as [x]
    or [y] is NaN; [x > y] is [y < x]. *)
Definition number : Set := float.

Bind Scope float_scope with number.

Definition number_le (x y : number) : bool := PrimFloat.leb x y.

Definition number_gt (x y : number) : bool := PrimFloat.ltb y x.

Definition char16 : Type := N.
Definition jsstring : Type := list char16.

(** A source literal, given by its ASCII text. *)
Fixpoint lit (s : string) : jsstring :=
  match s with
  | EmptyString => []
  | String a s' => N_of_ascii a :: lit s'
  end.

Definition quote : char16 := 34%N.
Definition NUL : char16 := 0%N.

(** [a === b] on strings. *)
Fixpoint strict_eq (a b : jsstring) : bool :=
  match a, b with
  | [], [] => true
  | x :: a', y :: b' => N.eqb x y && strict_eq a' b'
  | _, _ => false
  end.

(** [!s]: the empty string is the only falsy string. *)
Definition falsy (s : jsstring) : bool :=
  match s with
  | [] => true
  | _ :: _ => false
  end.

(** WhiteSpace and LineTerminator code points, the ones [trim] strips. *)
Definition isWhiteSpace (c : char16) : bool :=
  ((9 <=? c) && (c <=? 13) || (c =? 32) || (c =? 160) || (c =? 5760)
   || (8192 <=? c) && (c <=? 8202) || (c =? 8232) || (c =? 8233)
   || (c =? 8239) || (c =? 8287) || (c =? 12288) || (c =? 65279))%N.

Fixpoint trimStart (s : jsstring) : jsstring :=
  match s with
  | [] => []
  | c :: s' => if isWhiteSpace c then trimStart s' else s
  end.

Definition trimEnd (s : jsstring) : jsstring := rev (trimStart (rev s)).

Definition trim (s : jsstring) : jsstring := trimEnd (trimStart s).

Fixpoint startsWith (s p : jsstring) {struct p} : bool :=
  match p, s with
  | [], _ => true
  | _ :: _, [] => false
  | x :: p', y :: s' => N.eqb y x && startsWith s' p'
  end.

(** [s.includes(sub)]: [sub] occurs at some position of [s]. *)
Fixpoint includes (s sub : jsstring) : bool :=
  startsWith s sub
  || match s with
     | [] => false
     | _ :: s' => includes s' sub
     end.

(** [arr.includes(x)] on an array of strings. *)
Definition array_includes (arr : list jsstring) (x : jsstring) : bool :=
  existsb (strict_eq x) arr.

(** A value where an object of class [A] is expected: the object, or one
    of the two absent values. *)
Inductive reference (A : Type) : Type :=
| null
| undefined
| object (a : A).

Arguments null {A}.
Arguments undefined {A}.
Arguments object {A} a.

(** [!r]: an object is truthy, [null] and [undefined] are falsy. *)
Definition not_ref {A : Type} (r : reference A) : bool :=
  match r with
  | object _ => false
  | null | undefined => true
  end.

(** How a call that reads properties ends: it returns, or the read of a
    property of [null] or [undefined] throws a [TypeError]. *)
Inductive outcome (A : Type) : Type :=
| Returns (a : A)
| TypeError.

Arguments Returns {A} a.
Arguments TypeError {A}.

(** [r.field] *)
Definition property {A B : Type} (field : A -> B) (r : reference A)
  : outcome B :=
  match r with
  | object a => Returns (field a)
  | null | undefined => TypeError
  end.

(** [s.split(sep)] for a separator of one code unit, the form the domain
    layer uses: the pieces of [s] between the occurrences of [sep], at
    least one piece, each possibly empty. *)
Fixpoint split (s : jsstring) (sep : char16) : list jsstring :=
  match s with
  | [] => [[]]
  | c :: s' =>
      if N.eqb c sep then [] :: split s' sep
      else
        match split s' sep with
        | piece :: pieces => (c :: piece) :: pieces
        | [] => [[c]]
        end
  end.

(** [arr[i]]: the element, or [undefined] past the end. *)
Definition index {A : Type} (arr : list A) (i : nat) : reference A :=
  match nth_error arr i with
  | Some a => object a
  | None => undefined
  end.

End JS.

Import JS.

(** ** Domain errors

    Each error class is a constructor holding the class's public fields;
    for the two classes built from a message, the field is the message. *)

Inductive DomainError : Type :=
| FileSizeExceededError (fileSize maxSize : number)
| InvalidFileTypeError (mimeType : jsstring) (allowedTypes : list jsstring)
| InvalidFileNameError (message : jsstring)
| InvalidFileLocationError (message : jsstring)
| FileAlreadyUploadedError (fileId : jsstring)
| FileAlreadyDeletedError (fileId : jsstring)
| FileNotFoundError (fileId : jsstring).

(** How a call ends: it returns a value or throws a domain error. *)
Inductive completion (A : Type) : Type :=
| Normal (a : A)
| Throw (e : DomainError).

Arguments Normal {A} a.
Arguments Throw {A} e.

Module Exc.

Definition bind {A B : Type} (c : completion A) (k : A -> completion B)
  : completion B :=
  match c with
  | Normal a => k a
  | Throw e => Throw e
  end.

(** [if (cond) throw e;] *)
Definition throw_if (cond : bool) (e : DomainError) : completion unit :=
  if cond then Throw e else Normal tt.

End Exc.

Declare Scope exc_scope.
Delimit Scope exc_scope with exc.
Notation "c1 ;; c2" := (Exc.bind c1 (fun _ => c2))
  (at level 61, right associativity) : exc_scope.

(** ** FileLocation *)

Module FileLocation.

Record t : Type := mk { container : jsstring; path : jsstring }.

Definition msg_container_empty : jsstring := lit "Container cannot be empty".
Definition msg_path_empty : jsstring := lit "Path cannot be empty".
Definition msg_traversal : jsstring :=
  lit "Path cannot contain " ++ [quote] ++ lit ".." ++ [quote]
  ++ lit " (path traversal attempt)".
Definition msg_leading_slash : jsstring :=
  lit "Path cannot start with " ++ [quote] ++ lit "/" ++ [quote].

Definition validate (this : t) : completion unit :=
  (Exc.throw_if
     (falsy (container this) || (List.length (trim (container this)) =? 0)%nat)
     (InvalidFileLocationError msg_container_empty) ;;
   Exc.throw_if
     (falsy (path this) || (List.length (trim (path this)) =? 0)%nat)
     (InvalidFileLocationError msg_path_empty) ;;
   Exc.throw_if
     (includes (path this) (lit ".."))
     (InvalidFileLocationError msg_traversal) ;;
   Exc.throw_if
     (startsWith (path this) (lit "/"))
     (InvalidFileLocationError msg_leading_slash))%exc.

(** [new FileLocation(container, path)]: the fields are assigned, then the
    object validates itself; if it throws, no object is returned. *)
Definition new (container path : jsstring) : completion t :=
  let this := mk container path in
  (validate this ;; Normal this)%exc.

Definition getFullPath (this : t) : jsstring :=
  container this ++ lit "/" ++ path this.

Definition equals (this other : t) : bool :=
  strict_eq (container this) (container other)
  && strict_eq (path this) (path other).

End FileLocation.

(** ** Date

    The timestamp of the metadata; only [toISOString] is used by the
    domain layer. The calendar arithmetic is the proleptic Gregorian one of
    the language: [Day(t)], [TimeWithinDay(t)], year, month and date from
    the day number. *)

Module Date.

Local Open Scope Z_scope.

Record t : Type := mk { timeValue : Z }.

Definition msPerDay : Z := 86400000.

Definition digit (d : Z) : char16 := Z.to_N (48 + d mod 10).

(** The last [width] decimal digits of [n], most significant first. *)
Fixpoint padded (width : nat) (n : Z) : jsstring :=
  match width with
  | O => []
  | S w => padded w (n / 10) ++ [digit n]
  end.

(** Year, month (1..12) and day of month (1..31) of a day number counted
    from 1970-01-01. *)
Definition civil (day : Z) : Z * Z * Z :=
  let z := day + 719468 in
  let era := z / 146097 in
  let doe := z - era * 146097 in
  let yoe := (doe - doe / 1460 + doe / 36524 - doe / 146096) / 365 in
  let doy := doe - (365 * yoe + yoe / 4 - yoe / 100) in
  let mp := (5 * doy + 2) / 153 in
  let d := doy - (153 * mp + 2) / 5 + 1 in
  let m := if mp <? 10 then mp + 3 else mp - 9 in
  let y := yoe + era * 400 + (if m <=? 2 then 1 else 0) in
  (y, m, d).

(** Four digits for the years 0..9999, otherwise a sign and six digits. *)
Definition isoYear (y : Z) : jsstring :=
  if (0 <=? y) && (y <=? 9999) then padded 4 y
  else (if y <? 0 then lit "-" else lit "+") ++ padded 6 (Z.abs y).

Definition toISOString (this : t) : jsstring :=
  let tv := timeValue this in
  let '(y, m, d) := civil (tv / msPerDay) in
  let ms := tv mod msPerDay in
  isoYear y ++ lit "-" ++ padded 2 m ++ lit "-" ++ padded 2 d
  ++ lit "T" ++ padded 2 (ms / 3600000)
  ++ lit ":" ++ padded 2 (ms / 60000 mod 60)
  ++ lit ":" ++ padded 2 (ms / 1000 mod 60)
  ++ lit "." ++ padded 3 (ms mod 1000) ++ lit "Z".

End Date.

(** ** FileMetadata *)

Module FileMetadata.

Definition MAX_FILE_SIZE : number := (10 * 1024 * 1024)%float.

Definition ALLOWED_TYPES : list jsstring :=
  [lit "image/jpeg"; lit "image/png"; lit "application/pdf"].

Record t : Type := mk {
  fileName : jsstring;
  fileSize : number;
  mimeType : jsstring;
  ownerId : jsstring;
  uploadedAt : Date.t
}.

Definition msg_name_empty : jsstring := lit "File name cannot be empty".
Definition msg_name_too_long : jsstring :=
  lit "File name is too long (max 255 characters)".
Definition msg_name_invalid_chars : jsstring :=
  lit "File name contains invalid characters (../, /, or null byte)".

Definition validateFileSize (this : t) : completion unit :=
  (Exc.throw_if
     (number_le (fileSize this) 0)
     (FileSizeExceededError (fileSize this) MAX_FILE_SIZE) ;;
   Exc.throw_if
     (number_gt (fileSize this) MAX_FILE_SIZE)
     (FileSizeExceededError (fileSize this) MAX_FILE_SIZE))%exc.

Definition validateMimeType (this : t) : completion unit :=
  Exc.throw_if
    (negb (array_includes ALLOWED_TYPES (mimeType this)))
    (InvalidFileTypeError (mimeType this) ALLOWED_TYPES).

Definition validateFileName (this : t) : completion unit :=
  (Exc.throw_if
     (falsy (fileName this) || (List.length (trim (fileName this)) =? 0)%nat)
     (InvalidFileNameError msg_name_empty) ;;
   Exc.throw_if
     (255 <? List.length (fileName this))%nat
     (InvalidFileNameError msg_name_too_long) ;;
   Exc.throw_if
     (includes (fileName this) (lit "..")
      || includes (fileName this) (lit "/")
      || includes (fileName this) [NUL])
     (InvalidFileNameError msg_name_invalid_chars))%exc.

Definition validate (this : t) : completion unit :=
  (validateFileSize this ;;
   validateMimeType this ;;
   validateFileName this)%exc.

(** [new FileMetadata(fileName, fileSize, mimeType, ownerId, uploadedAt)].
    An omitted [uploadedAt] defaults to [new Date()], the reading [now] of
    the clock at the call. *)
Definition new (now : Date.t) (fileName : jsstring) (fileSize : number)
    (mimeType ownerId : jsstring) (uploadedAt : option Date.t)
  : completion t :=
  let this :=
    mk fileName fileSize mimeType ownerId
       (match uploadedAt with Some d => d | None => now end) in
  (validate this ;; Normal this)%exc.

Definition isImage (this : t) : bool :=
  startsWith (mimeType this) (lit "image/").

Definition isPDF (this : t) : bool :=
  strict_eq (mimeType this) (lit "application/pdf").

(** [parts.length > 1 ? parts[parts.length - 1].toLowerCase() : ''], with
    [parts = this.fileName.split('.')]. Calling a method of [undefined]
    would end in a [TypeError]. *)
Definition getFileExtension (toLowerCase : jsstring -> jsstring) (this : t)
  : outcome jsstring :=
  let parts := split (fileName this) 46%N in
  if (1 <? List.length parts)%nat
  then
    match index parts (List.length parts - 1) with
    | object part => Returns (toLowerCase part)
    | null | undefined => TypeError
    end
  else Returns [].

End FileMetadata.

(** ** FileStatus *)

Module FileStatus.

Inductive t : Type := PENDING | UPLOADED | DELETED.

(** The string each member of the enum stands for. *)
Definition value (s : t) : jsstring :=
  match s with
  | PENDING => lit "PENDING"
  | UPLOADED => lit "UPLOADED"
  | DELETED => lit "DELETED"
  end.

(** [a === b] on members of the enum. *)
Definition strict_eq (a b : t) : bool :=
  match a, b with
  | PENDING, PENDING | UPLOADED, UPLOADED | DELETED, DELETED => true
  | _, _ => false
  end.

End FileStatus.

(** ** Methods of a mutable object

    A method runs on the state of [this] and leaves a state behind,
    together with how it completed: the state of the object when a method
    throws is the state at the [throw]. *)

Module Method.

Definition method (S A : Type) : Type := S -> completion A * S.

Definition ret {S A : Type} (a : A) : method S A :=
  fun this => (Normal a, this).

Definition throw {S A : Type} (e : DomainError) : method S A :=
  fun this => (Throw e, this).

Definition bind {S A B : Type} (m : method S A) (k : A -> method S B)
  : method S B :=
  fun this =>
    match m this with
    | (Normal a, this') => k a this'
    | (Throw e, this') => (Throw e, this')
    end.

(** Reading a field of [this]. *)
Definition read {S A : Type} (field : S -> A) : method S A :=
  fun this => (Normal (field this), this).

(** [if (cond) { body }] *)
Definition when {S : Type} (cond : bool) (body : method S unit)
  : method S unit :=
  if cond then body else ret tt.

End Method.

Declare Scope method_scope.
Delimit Scope method_scope with method.
Notation "x <- c1 ;; c2" := (Method.bind c1 (fun x => c2))
  (at level 61, c1 at next level, right associativity) : method_scope.
Notation "c1 ;; c2" := (Method.bind c1 (fun _ => c2))
  (at level 61, right associativity) : method_scope.

(** ** File, the entity *)

Module File.

Import FileStatus Method.

(** The fields of the object; [_status] is the only one ever assigned
    after construction. *)
Record t : Type := mk {
  id : jsstring;
  metadata : FileMetadata.t;
  location : FileLocation.t;
  _status : FileStatus.t
}.

(** [this._status = s;] *)
Definition assign_status (s : FileStatus.t) : method t unit :=
  fun this =>
    (Normal tt, mk (id this) (metadata this) (location this) s).

(** [File.create(metadata, location)]; [uuid] is the identifier that
    [uuidv4()] hands out at the call. *)
Definition create (uuid : jsstring) (metadata : FileMetadata.t)
    (location : FileLocation.t) : t :=
  let id := uuid in
  mk id metadata location PENDING.

Definition reconstitute (id : jsstring) (metadata : FileMetadata.t)
    (location : FileLocation.t) (status : FileStatus.t) : t :=
  mk id metadata location status.

(** The getter [status]. *)
Definition status (this : t) : FileStatus.t := _status this.

Definition markAsUploaded : method t unit :=
  (st <- read _status ;;
   when (FileStatus.strict_eq st UPLOADED)
     (fileId <- read id ;; throw (FileAlreadyUploadedError fileId)) ;;
   st <- read _status ;;
   when (FileStatus.strict_eq st DELETED)
     (fileId <- read id ;; throw (FileAlreadyDeletedError fileId)) ;;
   assign_status UPLOADED)%method.

Definition markAsDeleted : method t unit :=
  (st <- read _status ;;
   when (FileStatus.strict_eq st DELETED)
     (fileId <- read id ;; throw (FileAlreadyDeletedError fileId)) ;;
   assign_status DELETED)%method.

Definition canBeDownloaded (this : t) : bool :=
  FileStatus.strict_eq (_status this) UPLOADED.

Definition belongsTo (this : t) (ownerId : jsstring) : bool :=
  JS.strict_eq (FileMetadata.ownerId (metadata this)) ownerId.

(** [this.equals(other)]: [if (!other) return false;] and then
    [return this.id === other.id;]. *)
Definition equals (this : t) (other : reference t) : outcome bool :=
  if not_ref other then Returns false
  else
    match property id other with
    | Returns other_id => Returns (JS.strict_eq (id this) other_id)
    | TypeError => TypeError
    end.

(** The plain object [toObject] returns. *)
Record plain : Type := mk_plain {
  plain_id : jsstring;
  plain_fileName : jsstring;
  plain_fileSize : number;
  plain_mimeType : jsstring;
  plain_ownerId : jsstring;
  plain_container : jsstring;
  plain_path : jsstring;
  plain_status : jsstring;
  plain_uploadedAt : jsstring
}.

Definition toObject (this : t) : plain :=
  {| plain_id := id this;
     plain_fileName := FileMetadata.fileName (metadata this);
     plain_fileSize := FileMetadata.fileSize (metadata this);
     plain_mimeType := FileMetadata.mimeType (metadata this);
     plain_ownerId := FileMetadata.ownerId (metadata this);
     plain_container := FileLocation.container (location this);
     plain_path := FileLocation.path (location this);
     plain_status := FileStatus.value (_status this);
     plain_uploadedAt :=
       Date.toISOString (FileMetadata.uploadedAt (metadata this)) |}.

(** The two transition operations, and a run of calls on one instance: a
    call that throws is caught by the caller and the run goes on with the
    object as the call left it. *)
Inductive operation : Type := MarkAsUploaded | MarkAsDeleted.

Definition call (op : operation) : method t unit :=
  match op with
  | MarkAsUploaded => markAsUploaded
  | MarkAsDeleted => markAsDeleted
  end.

Fixpoint run (ops : list operation) (this : t) : t :=
  match ops with
  | [] => this
  | op :: ops' => run ops' (snd (call op this))
  end.

(** How each call of a run completed, in order. *)
Fixpoint outcomes (ops : list operation) (this : t)
  : list (completion unit) :=
  match ops with
  | [] => []
  | op :: ops' =>
      fst (call op this) :: outcomes ops' (snd (call op this))
  end.

End File.

(** ** Vocabulary of the properties *)

(** Nothing is left of [s] once trimmed: [s] is empty or made of white
    space only. *)
Definition EmptyAfterTrim (s : jsstring) : Prop := trim s = [].

(** [sub] occurs in [s]. *)
Definition Contains (s sub : jsstring) : Prop :=
  exists pre post, s = pre ++ sub ++ post.

(** [s] begins with [p]. *)
Definition StartsWith (s p : jsstring) : Prop :=
  exists rest, s = p ++ rest.

(** A file name that breaks a rule of the name: nothing left after trim,
    more than 255 code units, or [..], [/] or a null code unit in it. *)
Definition bad_name (name : jsstring) : Prop :=
  EmptyAfterTrim name
  \/ 255 < List.length name
  \/ Contains name (lit "..")
  \/ Contains name (lit "/")
  \/ Contains name [NUL].

(** The size rule of the metadata, [0 < fileSize <= 10485760]. *)
Definition size_in_range (fileSize : number) : Prop :=
  (0 <? fileSize)%float = true /\ (fileSize <=? 10485760)%float = true.

(** [x] is NaN, the number that compares with nothing, itself
    included. *)
Definition NotANumber (x : number) : Prop := is_nan x = true.

(** The three permitted MIME types. *)
Definition allowed_type (m : jsstring) : Prop :=
  m = lit "image/jpeg" \/ m = lit "image/png" \/ m = lit "application/pdf".

(** A call that returned, as opposed to one that threw. *)
Definition returned {A : Type} (r : completion A) : bool :=
  match r with
  | Normal _ => true
  | Throw _ => false
  end.

(** The place of a status in the life of a file,
    PENDING, then UPLOADED, then DELETED. *)
Definition rank (s : FileStatus.t) : nat :=
  match s with
  | FileStatus.PENDING => 0
  | FileStatus.UPLOADED => 1
  | FileStatus.DELETED => 2
  end.

(** The code unit [c] occurs in [s]. *)
Definition Occurs (c : char16) (s : jsstring) : Prop := In c s.

(** ** Sample values

    The values of the examples written in the source: a JPEG of 1024000
    bytes owned by [user-123], stored in [my-bucket]. *)

Module Sample.

Definition now : Date.t := Date.mk 1700000000000.

Definition metadata : FileMetadata.t :=
  FileMetadata.mk (lit "photo.jpg") 1024000 (lit "image/jpeg")
    (lit "user-123") now.

Definition location : FileLocation.t :=
  FileLocation.mk (lit "my-bucket") (lit "uploads/user-123/photo.jpg").

Definition uuid : jsstring := lit "9b2f6c1e-4d3a-4f5b-8c7d-0e1f2a3b4c5d".

Definition file : File.t := File.create uuid metadata location.

(** A stand-in for [toLowerCase] on ASCII text: the letters [A] to [Z]
    go to [a] to [z], every other code unit stays. *)
Definition ascii_lower (s : jsstring) : jsstring :=
  map (fun c => if (65 <=? c) && (c <=? 90) then c + 32 else c)%N s.

End Sample.

(** * Properties *)

(** Case analysis on every test a validator branches on. *)
Ltac case_tests :=
  repeat match goal with
         | |- context [if ?b then _ else _] => destruct b
         end.

(** ** Strings: the tests of the code against their meaning *)

Section StringFacts.

Lemma strict_eq_iff (a b : jsstring) : strict_eq a b = true <-> a = b.
Proof.
  revert b; induction a as [|x a IH]; intros [|y b]; simpl;
    try (split; [discriminate | congruence]).
  - split; reflexivity.
  - rewrite andb_true_iff, N.eqb_eq, IH.
    split; [intros [-> ->]; reflexivity | intros E; inversion E; auto].
Qed.

Lemma strict_eq_refl (a : jsstring) : strict_eq a a = true.
Proof. apply strict_eq_iff; reflexivity. Qed.

Lemma array_includes_iff (arr : list jsstring) (x : jsstring) :
  array_includes arr x = true <-> In x arr.
Proof.
  unfold array_includes. rewrite existsb_exists. split.
  - intros [y [Hin Heq]]. apply strict_eq_iff in Heq. now subst.
  - intros Hin. exists x. split; [assumption | apply strict_eq_refl].
Qed.

Lemma startsWith_iff (s p : jsstring) :
  startsWith s p = true <-> StartsWith s p.
Proof.
  unfold StartsWith. revert s; induction p as [|x p IH]; intros s.
  - simpl. split; [intros _; exists s; reflexivity | reflexivity].
  - destruct s as [|y s]; simpl.
    + split; [discriminate | intros [rest E]; discriminate E].
    + rewrite andb_true_iff, N.eqb_eq, IH. split.
      * intros [-> [rest ->]]. exists rest; reflexivity.
      * intros [rest E]. inversion E; subst. split; [reflexivity | eauto].
Qed.

Lemma includes_unfold (s sub : jsstring) :
  includes s sub =
  startsWith s sub
  || match s with
     | [] => false
     | _ :: s' => includes s' sub
     end.
Proof. destruct s; reflexivity. Qed.

Lemma includes_iff (s sub : jsstring) :
  includes s sub = true <-> Contains s sub.
Proof.
  unfold Contains. split.
  - induction s as [|c s IH]; rewrite includes_unfold, orb_true_iff.
    + intros [H | H]; [| discriminate].
      apply startsWith_iff in H. destruct H as [rest E].
      exists [], rest. exact E.
    + intros [H | H].
      * apply startsWith_iff in H. destruct H as [rest E].
        exists [], rest. exact E.
      * destruct (IH H) as [pre [post E]].
        exists (c :: pre), post. simpl. now rewrite E.
  - intros [pre [post ->]]. induction pre as [|c pre IH].
    + rewrite includes_unfold, orb_true_iff. left.
      apply startsWith_iff. exists post; reflexivity.
    + simpl app. rewrite includes_unfold, IH. apply orb_true_r.
Qed.

Lemma trimStart_head (s r : jsstring) (c : char16) :
  trimStart s = c :: r -> isWhiteSpace c = false.
Proof.
  induction s as [|d s IH]; simpl; [discriminate |].
  destruct (isWhiteSpace d) eqn:W; [exact IH |].
  intros E; inversion E; subst; exact W.
Qed.

Lemma trimStart_white (s : jsstring) :
  trimStart s = [] <-> forallb isWhiteSpace s = true.
Proof.
  induction s as [|d s IH]; simpl; [tauto |].
  destruct (isWhiteSpace d); simpl; [exact IH |].
  split; discriminate.
Qed.

Lemma forallb_rev (f : char16 -> bool) (s : jsstring) :
  forallb f (rev s) = true <-> forallb f s = true.
Proof.
  rewrite !forallb_forall. split; intros H x Hx; apply H;
    [apply in_rev in Hx | apply in_rev]; assumption.
Qed.

Lemma trimStart_fixed (s : jsstring) :
  forallb isWhiteSpace (trimStart s) = true -> trimStart s = [].
Proof.
  destruct (trimStart s) as [|c r] eqn:E; [reflexivity |].
  apply trimStart_head in E. simpl. rewrite E. discriminate.
Qed.

(** [trim] leaves nothing exactly when every code unit is white space. *)
Lemma trim_white (s : jsstring) :
  EmptyAfterTrim s <-> forallb isWhiteSpace s = true.
Proof.
  unfold EmptyAfterTrim, trim, trimEnd. split.
  - intros H. apply trimStart_white.
    apply trimStart_fixed, forallb_rev, trimStart_white.
    destruct (trimStart (rev (trimStart s))); [reflexivity |].
    apply (f_equal (@List.length _)) in H. rewrite length_rev in H.
    discriminate H.
  - intros H. apply trimStart_white in H. rewrite H. reflexivity.
Qed.

(** The emptiness test of the validators,
    [!s || s.trim().length === 0]. *)
Lemma empty_test_iff (s : jsstring) :
  falsy s || (List.length (trim s) =? 0)%nat = true <-> EmptyAfterTrim s.
Proof.
  unfold EmptyAfterTrim. rewrite orb_true_iff, Nat.eqb_eq. split.
  - intros [H | H].
    + destruct s; [reflexivity | discriminate].
    + now apply length_zero_iff_nil.
  - intros H. right. now rewrite H.
Qed.

Lemma empty_test_false (s : jsstring) :
  falsy s || (List.length (trim s) =? 0)%nat = false <-> ~ EmptyAfterTrim s.
Proof.
  rewrite <- empty_test_iff. now destruct (_ || _).
Qed.

Lemma includes_false (s sub : jsstring) :
  includes s sub = false <-> ~ Contains s sub.
Proof. rewrite <- includes_iff. now destruct (includes s sub). Qed.

Lemma startsWith_false (s p : jsstring) :
  startsWith s p = false <-> ~ StartsWith s p.
Proof. rewrite <- startsWith_iff. now destruct (startsWith s p). Qed.

End StringFacts.

(** ** Numbers: the comparisons of doubles *)

Section NumberFacts.

Lemma SFcompare_antisym (x y : spec_float) :
  SFcompare y x = option_map CompOpp (SFcompare x y).
Proof.
  destruct x as [sx | sx | | sx mx ex], y as [sy | sy | | sy my ey]; simpl;
    try reflexivity;
    try (destruct sx; reflexivity); try (destruct sy; reflexivity);
    try (destruct sx, sy; reflexivity).
  rewrite (Z.compare_antisym ex ey).
  change (Pos.compare_cont Eq my mx) with (Pos.compare my mx).
  change (Pos.compare_cont Eq mx my) with (Pos.compare mx my).
  rewrite (Pos.compare_antisym mx my).
  destruct sx, sy, (ex ?= ey)%Z, (mx ?= my)%positive; reflexivity.
Qed.

Lemma SFcompare_refl (x : spec_float) :
  SFcompare x x = match x with S754_nan => None | _ => Some Eq end.
Proof.
  destruct x as [s | s | | s m e]; simpl; try reflexivity.
  - now destruct s.
  - rewrite Z.compare_refl.
    change (Pos.compare_cont Eq m m) with (Pos.compare m m).
    rewrite Pos.compare_refl. now destruct s.
Qed.

Lemma SFcompare_None (x y : spec_float) :
  SFcompare x y = None <-> x = S754_nan \/ y = S754_nan.
Proof.
  destruct x as [sx | sx | | sx mx ex], y as [sy | sy | | sy my ey]; simpl;
    split; intros H; try discriminate; auto;
    try (destruct H; discriminate).
Qed.

Lemma is_nan_spec (x : number) : is_nan x = true <-> Prim2SF x = S754_nan.
Proof.
  unfold is_nan. rewrite eqb_spec. unfold SFeqb. rewrite SFcompare_refl.
  destruct (Prim2SF x); simpl; split; congruence.
Qed.

(** NaN is one value. *)
Lemma NotANumber_iff (x : number) : NotANumber x <-> x = nan.
Proof.
  unfold NotANumber. split.
  - intros H. apply is_nan_spec in H.
    rewrite <- (SF2Prim_Prim2SF x), H. reflexivity.
  - intros ->. reflexivity.
Qed.

(** How two numbers compare: not at all when one is NaN, otherwise in
    exactly one of three ways. *)
Lemma number_order (x y : number) :
  let lt := (x <? y)%float in
  let le := (x <=? y)%float in
  let gt := (y <? x)%float in
  let ge := (y <=? x)%float in
  (is_nan x || is_nan y = true
   /\ lt = false /\ le = false /\ gt = false /\ ge = false)
  \/ (is_nan x || is_nan y = false
      /\ ((lt = true /\ le = true /\ gt = false /\ ge = false)
          \/ (lt = false /\ le = true /\ gt = false /\ ge = true)
          \/ (lt = false /\ le = false /\ gt = true /\ ge = true))).
Proof.
  cbv zeta. rewrite !ltb_spec, !leb_spec. unfold SFltb, SFleb.
  rewrite (SFcompare_antisym (Prim2SF x) (Prim2SF y)).
  assert (Hnan : is_nan x || is_nan y = true
                 <-> SFcompare (Prim2SF x) (Prim2SF y) = None).
  { rewrite SFcompare_None, orb_true_iff, !is_nan_spec. reflexivity. }
  revert Hnan.
  destruct (SFcompare (Prim2SF x) (Prim2SF y)) as [[| |] |]; simpl;
    intros Hnan.
  4: { left. split; [apply Hnan; reflexivity | tauto]. }
  all: right; split; [| tauto].
  all: destruct (is_nan x || is_nan y); [| reflexivity].
  all: destruct Hnan as [Hnan _]; discriminate (Hnan eq_refl).
Qed.

(** The two guards of the size validator, [fileSize <= 0] and
    [fileSize > 10485760], both fail exactly on the sizes in range and
    on NaN. *)
Lemma size_guards_false (size : number) :
  number_le size 0 || number_gt size 10485760 = false
  <-> size_in_range size \/ NotANumber size.
Proof.
  unfold number_le, number_gt, size_in_range, NotANumber.
  destruct (number_order size 0) as [[N0 [A0 [B0 [C0 D0]]]] | [N0 H0]];
    destruct (number_order size 10485760)
      as [[N1 [A1 [B1 [C1 D1]]]] | [N1 H1]].
  all: change (is_nan 0) with false in N0.
  all: change (is_nan 10485760) with false in N1.
  all: rewrite orb_false_r in N0, N1.
  all: try congruence.
  - rewrite B0, C1, N0. simpl. split; [auto | reflexivity].
  - rewrite N0.
    destruct H0 as [[A0 [B0 [C0 D0]]] | [[A0 [B0 [C0 D0]]]
                                       | [A0 [B0 [C0 D0]]]]];
      destruct H1 as [[A1 [B1 [C1 D1]]] | [[A1 [B1 [C1 D1]]]
                                         | [A1 [B1 [C1 D1]]]]];
      rewrite ?B0, ?C0, ?B1, ?C1; simpl;
      split; intros H; try discriminate H; auto;
      destruct H as [[H2 H3] | H]; congruence.
Qed.

Lemma size_guards_true (size : number) :
  number_le size 0 || number_gt size 10485760 = true
  <-> ~ (size_in_range size \/ NotANumber size).
Proof.
  rewrite <- size_guards_false. now destruct (_ || _).
Qed.

End NumberFacts.

(** ** FileLocation: construction *)

Section LocationConstruction.

Variables container path : jsstring.

(** The constructor, by the outcome of its four tests. *)
Lemma FileLocation_new_tests :
  FileLocation.new container path =
  if falsy container || (List.length (trim container) =? 0)%nat
  then Throw (InvalidFileLocationError FileLocation.msg_container_empty)
  else if falsy path || (List.length (trim path) =? 0)%nat
  then Throw (InvalidFileLocationError FileLocation.msg_path_empty)
  else if includes path (lit "..")
  then Throw (InvalidFileLocationError FileLocation.msg_traversal)
  else if startsWith path (lit "/")
  then Throw (InvalidFileLocationError FileLocation.msg_leading_slash)
  else Normal (FileLocation.mk container path).
Proof.
  unfold FileLocation.new, FileLocation.validate, Exc.bind, Exc.throw_if.
  cbn [FileLocation.container FileLocation.path].
  case_tests; reflexivity.
Qed.

(** The four reasons are four different texts, so the reason tells which
    rule was broken. *)
Lemma FileLocation_reasons_distinct :
  NoDup [FileLocation.msg_container_empty; FileLocation.msg_path_empty;
         FileLocation.msg_traversal; FileLocation.msg_leading_slash].
Proof.
  repeat constructor; simpl; intuition discriminate.
Qed.

(** C6. Construction of a [FileLocation] throws exactly when the container
    is empty after trim, the path is empty after trim, the path contains
    [..], or the path starts with [/]; the rules are tried in that order,
    so the first one violated gives the reason reported; a pair that
    violates none is accepted and the value stores container and path
    unchanged. *)
Theorem FileLocation_construction :
  let result := FileLocation.new container path in
  let rejected reason := result = Throw (InvalidFileLocationError reason) in
  (EmptyAfterTrim container -> rejected FileLocation.msg_container_empty)
  /\ (~ EmptyAfterTrim container -> EmptyAfterTrim path ->
      rejected FileLocation.msg_path_empty)
  /\ (~ EmptyAfterTrim container -> ~ EmptyAfterTrim path ->
      Contains path (lit "..") -> rejected FileLocation.msg_traversal)
  /\ (~ EmptyAfterTrim container -> ~ EmptyAfterTrim path ->
      ~ Contains path (lit "..") -> StartsWith path (lit "/") ->
      rejected FileLocation.msg_leading_slash)
  /\ (~ EmptyAfterTrim container -> ~ EmptyAfterTrim path ->
      ~ Contains path (lit "..") -> ~ StartsWith path (lit "/") ->
      result = Normal (FileLocation.mk container path))
  /\ ((exists e, result = Throw e) <->
      EmptyAfterTrim container \/ EmptyAfterTrim path
      \/ Contains path (lit "..") \/ StartsWith path (lit "/"))
  /\ (forall e, result = Throw e ->
      exists reason, e = InvalidFileLocationError reason).
Proof.
  cbv zeta. rewrite FileLocation_new_tests.
  destruct (falsy container || _) eqn:Hc;
    [apply empty_test_iff in Hc | apply empty_test_false in Hc].
  2: destruct (falsy path || _) eqn:Hp;
    [apply empty_test_iff in Hp | apply empty_test_false in Hp].
  3: destruct (includes path (lit "..")) eqn:Ht;
    [apply includes_iff in Ht | apply includes_false in Ht].
  4: destruct (startsWith path (lit "/")) eqn:Hs;
    [apply startsWith_iff in Hs | apply startsWith_false in Hs].
  all: repeat split; intros; try contradiction; try reflexivity;
    try solve [eexists; reflexivity]; try tauto.
  all: match goal with
       | H : exists e, Normal _ = Throw e |- _ =>
           destruct H as [? H]; discriminate H
       | H : _ = Throw _ |- _ =>
           first [discriminate H | inversion H; eexists; reflexivity]
       end.
Qed.

End LocationConstruction.

Lemma FileLocation_construction_witness :
  FileLocation.new (lit "my-bucket") (lit "uploads/user-123/photo.jpg")
  = Normal Sample.location
  /\ FileLocation.new (lit "my-bucket") (lit "uploads/../secret")
     = Throw (InvalidFileLocationError FileLocation.msg_traversal)
  /\ FileLocation.new (lit "  ") (lit "/etc/../passwd")
     = Throw (InvalidFileLocationError FileLocation.msg_container_empty).
Proof.
  split; [| split].
  - apply (FileLocation_construction
             (lit "my-bucket") (lit "uploads/user-123/photo.jpg")).
    + unfold EmptyAfterTrim; vm_compute; discriminate.
    + unfold EmptyAfterTrim; vm_compute; discriminate.
    + apply includes_false; reflexivity.
    + apply startsWith_false; reflexivity.
  - apply (FileLocation_construction
             (lit "my-bucket") (lit "uploads/../secret")).
    + unfold EmptyAfterTrim; vm_compute; discriminate.
    + unfold EmptyAfterTrim; vm_compute; discriminate.
    + apply includes_iff; reflexivity.
  - apply (FileLocation_construction (lit "  ") (lit "/etc/../passwd")).
    reflexivity.
Defined.


(** ** FileMetadata: construction *)

Section MetadataConstruction.

Variable now : Date.t.
Variable fileName : jsstring.
Variable fileSize : number.
Variables mimeType ownerId : jsstring.
Variable uploadedAt : option Date.t.

Lemma allowed_type_iff (m : jsstring) :
  array_includes FileMetadata.ALLOWED_TYPES m = true <-> allowed_type m.
Proof.
  rewrite array_includes_iff. unfold allowed_type. simpl.
  intuition congruence.
Qed.

Lemma allowed_type_false (m : jsstring) :
  negb (array_includes FileMetadata.ALLOWED_TYPES m) = true
  <-> ~ allowed_type m.
Proof.
  rewrite <- allowed_type_iff, negb_true_iff.
  now destruct (array_includes _ _).
Qed.

(** The size test, [fileSize <= 0] then [fileSize > MAX_FILE_SIZE]. *)
Lemma validateFileSize_tests (this : FileMetadata.t) :
  FileMetadata.validateFileSize this =
  if number_le (FileMetadata.fileSize this) 0
     || number_gt (FileMetadata.fileSize this) 10485760
  then Throw (FileSizeExceededError (FileMetadata.fileSize this) 10485760)
  else Normal tt.
Proof.
  unfold FileMetadata.validateFileSize, Exc.bind, Exc.throw_if.
  change FileMetadata.MAX_FILE_SIZE with 10485760%float.
  destruct (number_le _ _), (number_gt _ _); reflexivity.
Qed.

(** The name test, by the outcome of its three steps. *)
Lemma validateFileName_tests (this : FileMetadata.t) :
  FileMetadata.validateFileName this =
  let name := FileMetadata.fileName this in
  if falsy name || (List.length (trim name) =? 0)%nat
  then Throw (InvalidFileNameError FileMetadata.msg_name_empty)
  else if (255 <? List.length name)%nat
  then Throw (InvalidFileNameError FileMetadata.msg_name_too_long)
  else if includes name (lit "..") || includes name (lit "/")
          || includes name [NUL]
  then Throw (InvalidFileNameError FileMetadata.msg_name_invalid_chars)
  else Normal tt.
Proof.
  unfold FileMetadata.validateFileName, Exc.bind, Exc.throw_if. cbv zeta.
  case_tests; reflexivity.
Qed.

Lemma validateFileName_throws (this : FileMetadata.t) :
  (exists e, FileMetadata.validateFileName this = Throw e)
  <-> bad_name (FileMetadata.fileName this).
Proof.
  rewrite validateFileName_tests. cbv zeta. unfold bad_name.
  set (name := FileMetadata.fileName this).
  destruct (falsy name || _) eqn:He;
    [apply empty_test_iff in He | apply empty_test_false in He].
  { split; [tauto | eexists; reflexivity]. }
  destruct (Nat.ltb_spec 255 (List.length name)) as [Hl | Hl].
  { split; [tauto | eexists; reflexivity]. }
  destruct (includes name (lit "..")) eqn:H1;
    [apply includes_iff in H1 | apply includes_false in H1].
  { split; [tauto | eexists; reflexivity]. }
  destruct (includes name (lit "/")) eqn:H2;
    [apply includes_iff in H2 | apply includes_false in H2].
  { split; [tauto | eexists; reflexivity]. }
  destruct (includes name [NUL]) eqn:H3;
    [apply includes_iff in H3 | apply includes_false in H3].
  { split; [tauto | eexists; reflexivity]. }
  simpl. split.
  - intros [e E]; discriminate E.
  - intros [H | [H | [H | [H | H]]]]; try contradiction. lia.
Qed.

Lemma validateFileName_reason (this : FileMetadata.t) (e : DomainError) :
  FileMetadata.validateFileName this = Throw e ->
  e = InvalidFileNameError FileMetadata.msg_name_empty
  \/ e = InvalidFileNameError FileMetadata.msg_name_too_long
  \/ e = InvalidFileNameError FileMetadata.msg_name_invalid_chars.
Proof.
  rewrite validateFileName_tests. cbv zeta.
  case_tests; intros E; inversion E; auto.
Qed.

(** The constructor, by the outcome of its three validators. *)
Lemma FileMetadata_new_tests :
  let this :=
    FileMetadata.mk fileName fileSize mimeType ownerId
      (match uploadedAt with Some d => d | None => now end) in
  FileMetadata.new now fileName fileSize mimeType ownerId uploadedAt =
  if number_le fileSize 0 || number_gt fileSize 10485760
  then Throw (FileSizeExceededError fileSize 10485760)
  else if negb (array_includes FileMetadata.ALLOWED_TYPES mimeType)
       then Throw (InvalidFileTypeError mimeType FileMetadata.ALLOWED_TYPES)
       else match FileMetadata.validateFileName this with
            | Normal _ => Normal this
            | Throw e => Throw e
            end.
Proof.
  cbv zeta. unfold FileMetadata.new, FileMetadata.validate.
  rewrite validateFileSize_tests. unfold FileMetadata.validateMimeType.
  cbn [FileMetadata.fileSize FileMetadata.mimeType].
  unfold Exc.bind, Exc.throw_if.
  destruct (_ || _); [reflexivity |].
  destruct (negb _); reflexivity.
Qed.

(** C3. Whenever [fileSize <= 0] or [fileSize > 10485760], construction of
    a [FileMetadata] throws a [FileSizeExceededError] that carries that
    very size and the limit 10485760, the same error class for a size too
    small and for one too large; and whenever [0 < fileSize <= 10485760]
    no [FileSizeExceededError] is thrown at all. *)
Theorem FileMetadata_size_violation :
  let result :=
    FileMetadata.new now fileName fileSize mimeType ownerId uploadedAt in
  ((fileSize <=? 0)%float = true \/ (10485760 <? fileSize)%float = true ->
   result = Throw (FileSizeExceededError fileSize 10485760))
  /\ ((0 <? fileSize)%float = true /\ (fileSize <=? 10485760)%float = true ->
      forall size limit,
        result <> Throw (FileSizeExceededError size limit)).
Proof.
  cbv zeta. rewrite FileMetadata_new_tests. split.
  - intros Hbad.
    assert (Hg : number_le fileSize 0 || number_gt fileSize 10485760 = true).
    { unfold number_le, number_gt. apply orb_true_iff. exact Hbad. }
    rewrite Hg. reflexivity.
  - intros Hok size limit.
    assert (Hg : number_le fileSize 0 || number_gt fileSize 10485760 = false).
    { apply size_guards_false. left. exact Hok. }
    rewrite Hg.
    destruct (negb _); [discriminate |].
    destruct (FileMetadata.validateFileName _) as [u | e] eqn:Hn;
      [discriminate |].
    apply validateFileName_reason in Hn.
    destruct Hn as [-> | [-> | ->]]; discriminate.
Qed.

End MetadataConstruction.

Lemma FileMetadata_size_violation_witness :
  let construct size :=
    FileMetadata.new Sample.now (lit "photo.jpg") size (lit "image/jpeg")
      (lit "user-123") None in
  construct 0%float = Throw (FileSizeExceededError 0 10485760)
  /\ construct 10485761%float
     = Throw (FileSizeExceededError 10485761 10485760)
  /\ (forall size limit,
         construct 10485760%float
         <> Throw (FileSizeExceededError size limit)).
Proof.
  cbv zeta. split; [| split].
  - apply (FileMetadata_size_violation Sample.now (lit "photo.jpg") 0
             (lit "image/jpeg") (lit "user-123") None).
    left. reflexivity.
  - apply (FileMetadata_size_violation Sample.now (lit "photo.jpg") 10485761
             (lit "image/jpeg") (lit "user-123") None).
    right. reflexivity.
  - apply (FileMetadata_size_violation Sample.now (lit "photo.jpg") 10485760
             (lit "image/jpeg") (lit "user-123") None).
    split; reflexivity.
Defined.

(** The size validator on the numbers that are no byte count: it rejects
    negative zero and both infinities, and lets NaN through. *)
Example validateFileSize_special_numbers :
  let validate size :=
    FileMetadata.validateFileSize
      (FileMetadata.mk (lit "photo.jpg") size (lit "image/jpeg")
         (lit "user-123") Sample.now) in
  validate (- 0)%float = Throw (FileSizeExceededError (- 0) 10485760)
  /\ validate infinity = Throw (FileSizeExceededError infinity 10485760)
  /\ validate neg_infinity
     = Throw (FileSizeExceededError neg_infinity 10485760)
  /\ validate nan = Normal tt.
Proof. cbv zeta. repeat split. Qed.

(** C4, on a size that is NaN. The constructor called with the size NaN
    and a MIME type outside the allow-list throws [InvalidFileTypeError],
    although the size is not in [0 < fileSize <= 10485760], and it throws
    no [FileSizeExceededError] before: on NaN both guards of
    [validateFileSize], [fileSize <= 0] and [fileSize > MAX_FILE_SIZE],
    are false. *)
Theorem FileMetadata_type_violation_on_NaN_size :
  let result :=
    FileMetadata.new Sample.now (lit "setup.exe") nan
      (lit "application/x-msdownload") (lit "user-123") None in
  ~ size_in_range nan
  /\ ~ allowed_type (lit "application/x-msdownload")
  /\ result
     = Throw (InvalidFileTypeError (lit "application/x-msdownload")
                [lit "image/jpeg"; lit "image/png"; lit "application/pdf"])
  /\ (forall size limit,
         result <> Throw (FileSizeExceededError size limit)).
Proof.
  cbv zeta. split; [| split; [| split]].
  - intros [H _]. discriminate H.
  - intros [H | [H | H]]; discriminate H.
  - reflexivity.
  - intros size limit. discriminate.
Qed.

(** C5, on a size that is NaN. The constructor called with the size NaN,
    an allowed MIME type and a file name that contains [..] and [/]
    throws [InvalidFileNameError], although the size is not in
    [0 < fileSize <= 10485760]: on NaN both guards of [validateFileSize]
    are false, so the type and name validators run. *)
Theorem FileMetadata_name_violation_on_NaN_size :
  let result :=
    FileMetadata.new Sample.now (lit "../etc/passwd") nan
      (lit "application/pdf") (lit "user-123") None in
  ~ size_in_range nan
  /\ allowed_type (lit "application/pdf")
  /\ result
     = Throw (InvalidFileNameError
                (lit "File name contains invalid characters (../, /, or null byte)"))
  /\ (forall size limit,
         result <> Throw (FileSizeExceededError size limit)).
Proof.
  cbv zeta. split; [| split; [| split]].
  - intros [H _]. discriminate H.
  - right. right. reflexivity.
  - reflexivity.
  - intros size limit. discriminate.
Qed.

(** ** File: lifecycle *)

Section Lifecycle.

Import FileStatus.

Lemma markAsUploaded_cases (this : File.t) :
  File.markAsUploaded this =
  match File.status this with
  | PENDING =>
      (Normal tt,
       File.mk (File.id this) (File.metadata this) (File.location this)
         UPLOADED)
  | UPLOADED => (Throw (FileAlreadyUploadedError (File.id this)), this)
  | DELETED => (Throw (FileAlreadyDeletedError (File.id this)), this)
  end.
Proof. destruct this as [i m l []]; reflexivity. Qed.

Lemma markAsDeleted_cases (this : File.t) :
  File.markAsDeleted this =
  match File.status this with
  | PENDING | UPLOADED =>
      (Normal tt,
       File.mk (File.id this) (File.metadata this) (File.location this)
         DELETED)
  | DELETED => (Throw (FileAlreadyDeletedError (File.id this)), this)
  end.
Proof. destruct this as [i m l []]; reflexivity. Qed.

(** A call on a deleted entity leaves it deleted. *)
Lemma call_keeps_deleted (op : File.operation) (this : File.t) :
  File.status this = DELETED ->
  File.status (snd (File.call op this)) = DELETED.
Proof.
  intros H. destruct op; simpl.
  - rewrite markAsUploaded_cases, H. exact H.
  - rewrite markAsDeleted_cases, H. exact H.
Qed.

Lemma run_keeps_deleted (ops : list File.operation) (this : File.t) :
  File.status this = DELETED -> File.status (File.run ops this) = DELETED.
Proof.
  revert this; induction ops as [|op ops IH]; intros this H; simpl.
  - exact H.
  - apply IH, call_keeps_deleted, H.
Qed.

(** C1. The transition operations of [File] follow the state machine:
    [markAsUploaded] takes a PENDING entity to UPLOADED, throws
    [FileAlreadyUploadedError] with the entity's id on an UPLOADED one and
    [FileAlreadyDeletedError] with the id on a DELETED one; [markAsDeleted]
    takes a PENDING or UPLOADED entity to DELETED and throws
    [FileAlreadyDeletedError] with the id on a DELETED one; hence no run
    of the operations changes the status of a DELETED entity. *)
Theorem File_transitions_follow_state_machine
    (id : jsstring) (metadata : FileMetadata.t)
    (location : FileLocation.t) :
  let file := File.reconstitute id metadata location in
  File.markAsUploaded (file PENDING) = (Normal tt, file UPLOADED)
  /\ File.markAsUploaded (file UPLOADED)
     = (Throw (FileAlreadyUploadedError id), file UPLOADED)
  /\ File.markAsUploaded (file DELETED)
     = (Throw (FileAlreadyDeletedError id), file DELETED)
  /\ File.markAsDeleted (file PENDING) = (Normal tt, file DELETED)
  /\ File.markAsDeleted (file UPLOADED) = (Normal tt, file DELETED)
  /\ File.markAsDeleted (file DELETED)
     = (Throw (FileAlreadyDeletedError id), file DELETED)
  /\ (forall ops,
         File.status (File.run ops (file DELETED)) = DELETED).
Proof.
  cbv zeta. repeat (split; [reflexivity |]).
  intros ops. apply run_keeps_deleted. reflexivity.
Qed.

(** C2. A transition that fails is atomic: whenever [markAsUploaded] or
    [markAsDeleted] throws, the entity after the call is the entity before
    it, status, id, metadata and location alike. *)
Theorem File_failed_transition_changes_nothing
    (op : File.operation) (this after : File.t) (e : DomainError) :
  File.call op this = (Throw e, after) ->
  after = this
  /\ File.status after = File.status this
  /\ File.id after = File.id this
  /\ File.metadata after = File.metadata this
  /\ File.location after = File.location this.
Proof.
  intros H.
  assert (E : after = this).
  { destruct op; simpl in H;
      [rewrite markAsUploaded_cases in H | rewrite markAsDeleted_cases in H];
      destruct (File.status this); inversion H; reflexivity. }
  subst after. repeat split.
Qed.

(** ** File: equality and serialization *)

Lemma FileStatus_value_injective (a b : FileStatus.t) :
  FileStatus.value a = FileStatus.value b -> a = b.
Proof. destruct a, b; simpl; intros H; (reflexivity || discriminate H). Qed.

(** C7. Round trip through the serialization view: rebuilding an entity
    with [reconstitute] from the id and the status found in [toObject] of
    [f], with the metadata and location of [f], gives an entity [g] with
    [f.equals(g)] true and the status of [f]. The view holds the status as
    the string of the enum member, and that string names one member
    only. *)
Theorem File_reconstitute_roundtrip (f : File.t) :
  let view := File.toObject f in
  (exists st, FileStatus.value st = File.plain_status view)
  /\ (forall st,
         FileStatus.value st = File.plain_status view ->
         let g :=
           File.reconstitute (File.plain_id view) (File.metadata f)
             (File.location f) st in
         File.equals f (object g) = Returns true
         /\ File.status g = File.status f).
Proof.
  cbv zeta. split.
  - exists (File.status f). reflexivity.
  - intros st H. apply FileStatus_value_injective in H. subst st.
    destruct f as [i m l s]. split; [| reflexivity].
    unfold File.equals. simpl. now rewrite strict_eq_refl.
Qed.

(** C8. Entity equality is by identifier only: [a.equals(b)] is true if
    and only if the ids are equal, whatever the status, metadata and
    location of the two; in particular two entities with one id and
    nothing else in common are equal. *)
Theorem File_equals_by_id (a b : File.t) :
  (File.equals a (object b) = Returns true <-> File.id a = File.id b)
  /\ (forall metadata location status,
         File.equals a
           (object (File.reconstitute (File.id a) metadata location status))
         = Returns true).
Proof.
  split.
  - unfold File.equals. simpl. rewrite <- strict_eq_iff.
    split; [intros H; inversion H; reflexivity | intros ->; reflexivity].
  - intros. unfold File.equals. simpl. now rewrite strict_eq_refl.
Qed.

(** C9. [f.equals] with an absent argument, [null] or [undefined], returns
    false; it does not fail: the guard comes before the read of
    [other.id], so no call of [equals] ends in a [TypeError]. *)
Theorem File_equals_absent (f : File.t) :
  File.equals f null = Returns false
  /\ File.equals f undefined = Returns false
  /\ (forall other, File.equals f other <> TypeError).
Proof.
  split; [reflexivity | split; [reflexivity |]].
  intros [| | g]; discriminate.
Qed.

End Lifecycle.

Lemma File_failed_transition_witness :
  let uploaded :=
    File.reconstitute Sample.uuid Sample.metadata Sample.location
      FileStatus.UPLOADED in
  File.call File.MarkAsUploaded uploaded
  = (Throw (FileAlreadyUploadedError Sample.uuid), uploaded)
  /\ (uploaded = uploaded
      /\ File.status uploaded = File.status uploaded
      /\ File.id uploaded = File.id uploaded
      /\ File.metadata uploaded = File.metadata uploaded
      /\ File.location uploaded = File.location uploaded).
Proof.
  cbv zeta. split; [reflexivity |].
  apply (@File_failed_transition_changes_nothing File.MarkAsUploaded
           (File.reconstitute Sample.uuid Sample.metadata Sample.location
              FileStatus.UPLOADED)
           (File.reconstitute Sample.uuid Sample.metadata Sample.location
              FileStatus.UPLOADED)
           (FileAlreadyUploadedError Sample.uuid)).
  reflexivity.
Defined.

Lemma File_reconstitute_roundtrip_witness :
  let view := File.toObject Sample.file in
  let g :=
    File.reconstitute (File.plain_id view) Sample.metadata Sample.location
      FileStatus.PENDING in
  FileStatus.value FileStatus.PENDING = File.plain_status view
  /\ File.equals Sample.file (object g) = Returns true
  /\ File.status g = File.status Sample.file.
Proof.
  cbv zeta. split; [reflexivity |].
  apply (File_reconstitute_roundtrip Sample.file). reflexivity.
Defined.

(** ** The scenario of a fresh entity

    A freshly created entity cannot be downloaded; marking it uploaded
    succeeds and it can then be downloaded; marking it uploaded again
    throws [FileAlreadyUploadedError] with its id; marking it deleted then
    succeeds; after that either operation throws
    [FileAlreadyDeletedError]. *)
Example File_fresh_entity_scenario :
  let f0 := Sample.file in
  let '(r1, f1) := File.markAsUploaded f0 in
  let '(r2, f2) := File.markAsUploaded f1 in
  let '(r3, f3) := File.markAsDeleted f2 in
  let '(r4, f4) := File.markAsUploaded f3 in
  let '(r5, f5) := File.markAsDeleted f4 in
  File.canBeDownloaded f0 = false
  /\ r1 = Normal tt /\ File.canBeDownloaded f1 = true
  /\ r2 = Throw (FileAlreadyUploadedError Sample.uuid)
  /\ r3 = Normal tt /\ File.status f3 = FileStatus.DELETED
  /\ r4 = Throw (FileAlreadyDeletedError Sample.uuid)
  /\ r5 = Throw (FileAlreadyDeletedError Sample.uuid)
  /\ File.status f5 = FileStatus.DELETED.
Proof. vm_compute. repeat split. Qed.

(** ** The serialization view of the sample *)

Example File_toObject_sample :
  File.toObject Sample.file =
  {| File.plain_id := Sample.uuid;
     File.plain_fileName := lit "photo.jpg";
     File.plain_fileSize := 1024000;
     File.plain_mimeType := lit "image/jpeg";
     File.plain_ownerId := lit "user-123";
     File.plain_container := lit "my-bucket";
     File.plain_path := lit "uploads/user-123/photo.jpg";
     File.plain_status := lit "PENDING";
     File.plain_uploadedAt := lit "2023-11-14T22:13:20.000Z" |}.
Proof. vm_compute. reflexivity. Qed.

Example Date_toISOString_epoch :
  Date.toISOString (Date.mk 0) = lit "1970-01-01T00:00:00.000Z".
Proof. vm_compute. reflexivity. Qed.

Example Date_toISOString_leap_day :
  Date.toISOString (Date.mk 1709210096789) = lit "2024-02-29T12:34:56.789Z".
Proof. vm_compute. reflexivity. Qed.

Example Date_toISOString_before_epoch :
  Date.toISOString (Date.mk (-1)) = lit "1969-12-31T23:59:59.999Z".
Proof. vm_compute. reflexivity. Qed.

Example Date_toISOString_extended_year :
  Date.toISOString (Date.mk 8640000000000000)
  = lit "+275760-09-13T00:00:00.000Z"
  /\ Date.toISOString (Date.mk (-62198755200000))
     = lit "-000001-01-01T00:00:00.000Z".
Proof. vm_compute. split; reflexivity. Qed.

Example trim_strips_both_ends :
  trim (lit "  photo.jpg ") = lit "photo.jpg"
  /\ trim (lit " /secret") = lit "/secret"
  /\ trim [9; 10; 160; 8195; 65279]%N = [].
Proof. vm_compute. repeat split. Qed.

(** * Further properties of the value objects and of the entity *)

(** ** FileLocation: equality and full path *)

Section LocationQueries.

Lemma Contains_single (s : jsstring) (c : char16) :
  Contains s [c] <-> Occurs c s.
Proof.
  unfold Contains, Occurs. split.
  - intros [pre [post ->]]. apply in_or_app. right. left. reflexivity.
  - intros H. apply in_split in H. destruct H as [pre [post ->]].
    exists pre, post. reflexivity.
Qed.

(** What construction guarantees of the value it returns. *)
Lemma FileLocation_new_Normal (container path : jsstring)
    (loc : FileLocation.t) :
  FileLocation.new container path = Normal loc ->
  loc = FileLocation.mk container path
  /\ ~ EmptyAfterTrim container
  /\ ~ EmptyAfterTrim path
  /\ ~ Contains path (lit "..")
  /\ ~ StartsWith path (lit "/").
Proof.
  rewrite FileLocation_new_tests.
  destruct (falsy container || _) eqn:Hc; [discriminate |].
  destruct (falsy path || _) eqn:Hp; [discriminate |].
  destruct (includes path (lit "..")) eqn:Ht; [discriminate |].
  destruct (startsWith path (lit "/")) eqn:Hs; [discriminate |].
  intros E. inversion E.
  apply empty_test_false in Hc, Hp. apply includes_false in Ht.
  apply startsWith_false in Hs. auto.
Qed.

(** A traversal sequence cannot straddle the separator. *)
Lemma includes_dots_around_slash (a b : jsstring) :
  includes (a ++ lit "/" ++ b) (lit "..")
  = includes a (lit "..") || includes b (lit "..").
Proof.
  induction a as [|x a IH].
  - reflexivity.
  - change ((x :: a) ++ lit "/" ++ b) with (x :: (a ++ lit "/" ++ b)).
    rewrite (includes_unfold (x :: _)), (includes_unfold (x :: a)), IH.
    rewrite orb_assoc. f_equal. f_equal.
    destruct a as [|y a]; simpl.
    + now rewrite !andb_false_r.
    + reflexivity.
Qed.

Lemma full_path_cancel (c1 c2 p1 p2 : jsstring) :
  ~ Occurs 47%N c1 -> ~ Occurs 47%N c2 ->
  c1 ++ lit "/" ++ p1 = c2 ++ lit "/" ++ p2 -> c1 = c2 /\ p1 = p2.
Proof.
  unfold Occurs. revert c2.
  induction c1 as [|x c1 IH]; intros [|y c2] H1 H2 E; simpl in *.
  - inversion E; auto.
  - inversion E; subst. tauto.
  - inversion E; subst. tauto.
  - inversion E; subst.
    destruct (IH c2) as [-> ->]; auto.
Qed.

(** X1. [equals] on locations is equality of values: it returns true
    exactly when the two locations have the same container and the same
    path. *)
Theorem FileLocation_equals_is_value_equality (a b : FileLocation.t) :
  FileLocation.equals a b = true <-> a = b.
Proof.
  unfold FileLocation.equals.
  rewrite andb_true_iff, !strict_eq_iff.
  destruct a as [ca pa], b as [cb pb]; simpl. split.
  - intros [-> ->]. reflexivity.
  - intros E. inversion E. auto.
Qed.

(** X2. The traversal rule guards the path only: the full path of a
    constructed location contains [..] exactly when its container
    does. *)
Theorem FileLocation_full_path_traversal
    (container path : jsstring) (loc : FileLocation.t) :
  FileLocation.new container path = Normal loc ->
  (Contains (FileLocation.getFullPath loc) (lit "..")
   <-> Contains container (lit "..")).
Proof.
  intros H. apply FileLocation_new_Normal in H.
  destruct H as [-> [_ [_ [Hdots _]]]].
  apply includes_false in Hdots.
  unfold FileLocation.getFullPath. simpl FileLocation.container.
  simpl FileLocation.path.
  rewrite <- !includes_iff, includes_dots_around_slash, Hdots.
  now rewrite orb_false_r.
Qed.

(** X3. Among locations whose container holds no [/], the full path tells
    the location: equal full paths come from equal locations. Without
    that condition it does not: two constructed locations that [equals]
    tells apart can have one full path. *)
Theorem FileLocation_full_path_injective :
  (forall a b : FileLocation.t,
      ~ Contains (FileLocation.container a) (lit "/") ->
      ~ Contains (FileLocation.container b) (lit "/") ->
      FileLocation.getFullPath a = FileLocation.getFullPath b ->
      a = b)
  /\ (exists a b,
         FileLocation.new (lit "media/img") (lit "a.png") = Normal a
         /\ FileLocation.new (lit "media") (lit "img/a.png") = Normal b
         /\ FileLocation.getFullPath a = FileLocation.getFullPath b
         /\ FileLocation.equals a b = false).
Proof.
  split.
  - intros [ca pa] [cb pb] Ha Hb E. simpl in Ha, Hb.
    change (lit "/") with [47%N] in Ha, Hb.
    rewrite Contains_single in Ha, Hb.
    unfold FileLocation.getFullPath in E. simpl in E.
    destruct (@full_path_cancel ca cb pa pb Ha Hb E) as [-> ->]. reflexivity.
  - exists (FileLocation.mk (lit "media/img") (lit "a.png")),
      (FileLocation.mk (lit "media") (lit "img/a.png")).
    repeat split.
Qed.

End LocationQueries.

Lemma FileLocation_full_path_traversal_witness :
  FileLocation.new (lit "..") (lit "etc/passwd")
  = Normal (FileLocation.mk (lit "..") (lit "etc/passwd"))
  /\ (Contains
        (FileLocation.getFullPath
           (FileLocation.mk (lit "..") (lit "etc/passwd")))
        (lit "..")
      <-> Contains (lit "..") (lit "..")).
Proof.
  split; [reflexivity |].
  apply (@FileLocation_full_path_traversal (lit "..") (lit "etc/passwd")).
  reflexivity.
Defined.

Lemma FileLocation_full_path_injective_witness :
  FileLocation.mk (lit "my-bucket") (lit "uploads/a.png")
  = FileLocation.mk (lit "my-bucket") (lit "uploads/a.png").
Proof.
  apply (proj1 FileLocation_full_path_injective).
  - apply includes_false. reflexivity.
  - apply includes_false. reflexivity.
  - reflexivity.
Defined.

(** ** FileMetadata: what a constructed value guarantees *)

Section MetadataQueries.

Variable now : Date.t.
Variable fileName : jsstring.
Variable fileSize : number.
Variables mimeType ownerId : jsstring.
Variable uploadedAt : option Date.t.

(** Construction returns exactly when the size passes both guards, the
    type is allowed and the name is good, and it returns the fields as
    given. *)
Lemma FileMetadata_new_Normal_iff (m : FileMetadata.t) :
  FileMetadata.new now fileName fileSize mimeType ownerId uploadedAt
  = Normal m
  <-> (size_in_range fileSize \/ NotANumber fileSize)
      /\ allowed_type mimeType
      /\ ~ bad_name fileName
      /\ m = FileMetadata.mk fileName fileSize mimeType ownerId
               (match uploadedAt with Some d => d | None => now end).
Proof.
  rewrite FileMetadata_new_tests. cbv zeta.
  set (this := FileMetadata.mk fileName fileSize mimeType ownerId _).
  pose proof (validateFileName_throws this) as Hthrows.
  cbn [FileMetadata.fileName this] in Hthrows.
  destruct (_ || _) eqn:Hs;
    [apply size_guards_true in Hs | apply size_guards_false in Hs].
  { split; [discriminate | tauto]. }
  destruct (negb _) eqn:Ht.
  { apply allowed_type_false in Ht. split; [discriminate | tauto]. }
  assert (Hal : allowed_type mimeType).
  { apply allowed_type_iff. now apply negb_false_iff in Ht. }
  destruct (FileMetadata.validateFileName this) as [u | e].
  - assert (Hgood : ~ bad_name fileName).
    { intros Hb. apply Hthrows in Hb. destruct Hb as [e E]. discriminate E. }
    split.
    + intros E. inversion E. auto.
    + intros [_ [_ [_ ->]]]. reflexivity.
  - assert (Hb : bad_name fileName) by (apply Hthrows; eauto).
    split; [discriminate | tauto].
Qed.

(** X4. What a constructed metadata guarantees: when construction
    returns, the value holds the arguments as given (the clock reading
    when no date is given), its type is one of the three allowed, its
    name breaks no rule of the name, and its size has passed both guards
    of the size validator, so it is in [0 < size <= 10485760] or it is
    NaN; and on every input with an allowed type, a good name and a size
    in range, or NaN, construction does return. *)
Theorem FileMetadata_constructed_is_valid :
  let result :=
    FileMetadata.new now fileName fileSize mimeType ownerId uploadedAt in
  (forall m,
      result = Normal m ->
      FileMetadata.fileName m = fileName
      /\ FileMetadata.fileSize m = fileSize
      /\ FileMetadata.mimeType m = mimeType
      /\ FileMetadata.ownerId m = ownerId
      /\ FileMetadata.uploadedAt m
         = match uploadedAt with Some d => d | None => now end
      /\ (size_in_range (FileMetadata.fileSize m)
          \/ NotANumber (FileMetadata.fileSize m))
      /\ allowed_type (FileMetadata.mimeType m)
      /\ ~ bad_name (FileMetadata.fileName m))
  /\ (size_in_range fileSize \/ NotANumber fileSize ->
      allowed_type mimeType -> ~ bad_name fileName ->
      exists m, result = Normal m).
Proof.
  cbv zeta. split.
  - intros m H. apply FileMetadata_new_Normal_iff in H.
    destruct H as [Hs [Ht [Hn ->]]]. simpl. repeat split; assumption.
  - intros Hs Ht Hn. eexists. apply FileMetadata_new_Normal_iff. eauto.
Qed.

(** X5. Which reason a bad name is rejected with: the emptiness test
    comes first, then the length test, then the test for forbidden
    sequences, so a name of white space only is reported empty whatever
    its length, and a name too long is reported too long whatever it
    contains. *)
Theorem FileMetadata_name_reason_order :
  size_in_range fileSize -> allowed_type mimeType ->
  let result :=
    FileMetadata.new now fileName fileSize mimeType ownerId uploadedAt in
  let rejected reason := result = Throw (InvalidFileNameError reason) in
  (EmptyAfterTrim fileName -> rejected FileMetadata.msg_name_empty)
  /\ (~ EmptyAfterTrim fileName -> (255 < List.length fileName)%nat ->
      rejected FileMetadata.msg_name_too_long)
  /\ (~ EmptyAfterTrim fileName -> (List.length fileName <= 255)%nat ->
      Contains fileName (lit "..") \/ Contains fileName (lit "/")
      \/ Contains fileName [NUL] ->
      rejected FileMetadata.msg_name_invalid_chars).
Proof.
  intros Hs Ht. cbv zeta. rewrite FileMetadata_new_tests.
  assert (Hg : number_le fileSize 0 || number_gt fileSize 10485760 = false)
    by (apply size_guards_false; left; exact Hs).
  rewrite Hg.
  apply allowed_type_iff in Ht. rewrite Ht. simpl negb. cbv iota.
  rewrite validateFileName_tests. cbv zeta. cbn [FileMetadata.fileName].
  destruct (falsy fileName || _) eqn:He;
    [apply empty_test_iff in He | apply empty_test_false in He].
  { split; [reflexivity | split; intros; contradiction]. }
  destruct (Nat.ltb_spec 255 (List.length fileName)) as [Hl | Hl].
  { split; [intros; contradiction |].
    split; [reflexivity | intros; lia]. }
  split; [intros; contradiction |].
  split; [intros; lia |].
  intros _ _ Hc.
  assert (Hb : includes fileName (lit "..") || includes fileName (lit "/")
               || includes fileName [NUL] = true).
  { rewrite !orb_true_iff, !includes_iff. tauto. }
  rewrite Hb. reflexivity.
Qed.

(** X17. When the type error is thrown: construction throws
    [InvalidFileTypeError] exactly when the size passes both guards of
    the size validator, that is, it is in [0 < size <= 10485760] or it is
    NaN, and the MIME type is none of the three allowed; the error
    carries the offending type and the whole allow-list; and whenever
    [fileSize <= 0] or [fileSize > 10485760] the size error is thrown,
    whatever the type. *)
Theorem FileMetadata_type_violation_exactly :
  let result :=
    FileMetadata.new now fileName fileSize mimeType ownerId uploadedAt in
  let allow_list :=
    [lit "image/jpeg"; lit "image/png"; lit "application/pdf"] in
  ((exists m l, result = Throw (InvalidFileTypeError m l))
   <-> (size_in_range fileSize \/ NotANumber fileSize)
       /\ ~ allowed_type mimeType)
  /\ (forall m l,
         result = Throw (InvalidFileTypeError m l) ->
         m = mimeType /\ l = allow_list)
  /\ ((fileSize <=? 0)%float = true \/ (10485760 <? fileSize)%float = true ->
      result = Throw (FileSizeExceededError fileSize 10485760)).
Proof.
  cbv zeta. rewrite FileMetadata_new_tests.
  set (this := FileMetadata.mk fileName fileSize mimeType ownerId _).
  pose proof (validateFileName_reason this) as Hreason.
  destruct (_ || _) eqn:Hs.
  - apply size_guards_true in Hs. split; [| split].
    + split; [intros [m [l E]]; discriminate E | tauto].
    + intros m l E. discriminate E.
    + intros _. reflexivity.
  - assert (Hguards : (fileSize <=? 0)%float = true
                      \/ (10485760 <? fileSize)%float = true -> False).
    { intros H. apply orb_true_iff in H. unfold number_le, number_gt in Hs.
      rewrite H in Hs. discriminate Hs. }
    apply size_guards_false in Hs.
    destruct (negb _) eqn:Ht.
    + apply allowed_type_false in Ht. split; [| split].
      * split; [intros _; split; assumption |].
        intros _. do 2 eexists; reflexivity.
      * intros m l E. inversion E. split; reflexivity.
      * intros H. destruct (Hguards H).
    + assert (Hal : allowed_type mimeType).
      { apply allowed_type_iff. now apply negb_false_iff in Ht. }
      assert (Hno : forall m l,
                 match FileMetadata.validateFileName this with
                 | Normal _ => Normal this
                 | Throw e => Throw e
                 end <> Throw (InvalidFileTypeError m l)).
      { intros m l.
        destruct (FileMetadata.validateFileName this) as [u | e];
          [discriminate |].
        destruct (Hreason e eq_refl) as [-> | [-> | ->]]; discriminate. }
      split; [| split].
      * split; [intros [m [l E]]; destruct (Hno m l E) |].
        intros [_ Hnot]. contradiction.
      * intros m l E. destruct (Hno m l E).
      * intros H. destruct (Hguards H).
Qed.

(** X18. When the name error is thrown: construction throws
    [InvalidFileNameError] exactly when the size passes both guards of
    the size validator, that is, it is in [0 < size <= 10485760] or it is
    NaN, the MIME type is allowed, and the file name is empty after trim,
    or longer than 255, or contains [..], [/] or a null code unit; the
    error carries one of the three reasons written in the validator. *)
Theorem FileMetadata_name_violation_exactly :
  let result :=
    FileMetadata.new now fileName fileSize mimeType ownerId uploadedAt in
  ((exists reason, result = Throw (InvalidFileNameError reason))
   <-> (size_in_range fileSize \/ NotANumber fileSize)
       /\ allowed_type mimeType /\ bad_name fileName)
  /\ (forall reason,
         result = Throw (InvalidFileNameError reason) ->
         reason = lit "File name cannot be empty"
         \/ reason = lit "File name is too long (max 255 characters)"
         \/ reason =
            lit "File name contains invalid characters (../, /, or null byte)").
Proof.
  cbv zeta. rewrite FileMetadata_new_tests.
  set (this := FileMetadata.mk fileName fileSize mimeType ownerId _).
  pose proof (validateFileName_throws this) as Hthrows.
  pose proof (validateFileName_reason this) as Hreason.
  cbn [FileMetadata.fileName this] in Hthrows.
  destruct (_ || _) eqn:Hs;
    [apply size_guards_true in Hs | apply size_guards_false in Hs].
  { split.
    - split; [intros [r E]; discriminate E | tauto].
    - intros r E; discriminate E. }
  destruct (negb _) eqn:Ht.
  { apply allowed_type_false in Ht. split.
    - split; [intros [r E]; discriminate E | tauto].
    - intros r E; discriminate E. }
  assert (Hal : allowed_type mimeType).
  { apply allowed_type_iff. now apply negb_false_iff in Ht. }
  destruct (FileMetadata.validateFileName this) as [u | e].
  - assert (Hgood : ~ bad_name fileName).
    { intros Hb. apply Hthrows in Hb. destruct Hb as [e E]. discriminate E. }
    split.
    + split; [intros [r E]; discriminate E | tauto].
    + intros r E; discriminate E.
  - assert (Hb : bad_name fileName) by (apply Hthrows; eauto).
    split.
    + split; [intros _; auto |].
      intros _. destruct (Hreason e eq_refl) as [-> | [-> | ->]];
        eexists; reflexivity.
    + intros r E. inversion E; subst e.
      destruct (Hreason _ eq_refl) as [H | [H | H]]; inversion H; auto.
Qed.

End MetadataQueries.

Lemma FileMetadata_constructed_is_valid_witness :
  (exists m,
      FileMetadata.new Sample.now (lit "photo.jpg") 1024000
        (lit "image/jpeg") (lit "user-123") None
      = Normal m)
  /\ (exists m,
         FileMetadata.new Sample.now (lit "photo.jpg") nan
           (lit "image/jpeg") (lit "user-123") None
         = Normal m).
Proof.
  assert (Hn : ~ bad_name (lit "photo.jpg")).
  { intros [H | [H | [H | [H | H]]]].
    - unfold EmptyAfterTrim in H; vm_compute in H; discriminate H.
    - simpl in H; lia.
    - apply includes_iff in H; discriminate H.
    - apply includes_iff in H; discriminate H.
    - apply includes_iff in H; discriminate H. }
  split.
  - apply (FileMetadata_constructed_is_valid Sample.now (lit "photo.jpg")
             1024000 (lit "image/jpeg") (lit "user-123") None).
    + left. split; reflexivity.
    + left. reflexivity.
    + exact Hn.
  - apply (FileMetadata_constructed_is_valid Sample.now (lit "photo.jpg")
             nan (lit "image/jpeg") (lit "user-123") None).
    + right. reflexivity.
    + left. reflexivity.
    + exact Hn.
Defined.

Lemma FileMetadata_name_reason_order_witness :
  FileMetadata.new Sample.now (List.repeat 32%N 300) 1024 (lit "image/png")
    (lit "user-123") None
  = Throw (InvalidFileNameError FileMetadata.msg_name_empty)
  /\ FileMetadata.new Sample.now (List.repeat 47%N 256) 1024
       (lit "image/png") (lit "user-123") None
     = Throw (InvalidFileNameError FileMetadata.msg_name_too_long).
Proof.
  assert (Hs : size_in_range 1024) by (split; reflexivity).
  assert (Ht : allowed_type (lit "image/png")) by (right; left; reflexivity).
  split.
  - apply (FileMetadata_name_reason_order Sample.now (List.repeat 32%N 300)
             (lit "user-123") None Hs Ht).
    vm_compute. reflexivity.
  - apply (FileMetadata_name_reason_order Sample.now (List.repeat 47%N 256)
             (lit "user-123") None Hs Ht).
    + unfold EmptyAfterTrim; vm_compute; discriminate.
    + rewrite repeat_length. lia.
Defined.

Lemma FileMetadata_type_violation_exactly_witness :
  let construct size :=
    FileMetadata.new Sample.now (lit "setup.exe") size
      (lit "application/x-msdownload") (lit "user-123") None in
  (exists m l, construct 1024%float = Throw (InvalidFileTypeError m l))
  /\ (exists m l, construct nan = Throw (InvalidFileTypeError m l))
  /\ construct 0%float = Throw (FileSizeExceededError 0 10485760).
Proof.
  cbv zeta.
  assert (Hty : ~ allowed_type (lit "application/x-msdownload")).
  { intros [H | [H | H]]; discriminate H. }
  split; [| split].
  - apply (FileMetadata_type_violation_exactly Sample.now (lit "setup.exe")
             1024 (lit "application/x-msdownload") (lit "user-123") None).
    split; [left; split; reflexivity | exact Hty].
  - apply (FileMetadata_type_violation_exactly Sample.now (lit "setup.exe")
             nan (lit "application/x-msdownload") (lit "user-123") None).
    split; [right; reflexivity | exact Hty].
  - apply (FileMetadata_type_violation_exactly Sample.now (lit "setup.exe")
             0 (lit "application/x-msdownload") (lit "user-123") None).
    left. reflexivity.
Defined.

Lemma FileMetadata_name_violation_exactly_witness :
  (exists reason,
      FileMetadata.new Sample.now (lit "../etc/passwd") 1024
        (lit "application/pdf") (lit "user-123") None
      = Throw (InvalidFileNameError reason))
  /\ (exists reason,
         FileMetadata.new Sample.now (lit "../etc/passwd") nan
           (lit "application/pdf") (lit "user-123") None
         = Throw (InvalidFileNameError reason)).
Proof.
  assert (Hb : bad_name (lit "../etc/passwd")).
  { right; right; left. apply includes_iff; reflexivity. }
  assert (Ht : allowed_type (lit "application/pdf"))
    by (right; right; reflexivity).
  split.
  - apply (FileMetadata_name_violation_exactly Sample.now
             (lit "../etc/passwd") 1024 (lit "application/pdf")
             (lit "user-123") None).
    split; [left; split; reflexivity | split; assumption].
  - apply (FileMetadata_name_violation_exactly Sample.now
             (lit "../etc/passwd") nan (lit "application/pdf")
             (lit "user-123") None).
    split; [right; reflexivity | split; assumption].
Defined.

(** ** FileMetadata: queries on a constructed value *)

Section MetadataConstructed.

Variable now : Date.t.
Variable fileName : jsstring.
Variable fileSize : number.
Variables mimeType ownerId : jsstring.
Variable uploadedAt : option Date.t.
Variable m : FileMetadata.t.

Hypothesis constructed :
  FileMetadata.new now fileName fileSize mimeType ownerId uploadedAt
  = Normal m.

(** X6. Every constructed metadata is an image or a PDF and never both:
    [isImage] holds exactly for the two image types of the allow-list,
    [isPDF] exactly for the PDF type, and each is the negation of the
    other. *)
Theorem FileMetadata_image_xor_pdf :
  (FileMetadata.isImage m = true
   <-> FileMetadata.mimeType m = lit "image/jpeg"
       \/ FileMetadata.mimeType m = lit "image/png")
  /\ (FileMetadata.isPDF m = true
      <-> FileMetadata.mimeType m = lit "application/pdf")
  /\ FileMetadata.isImage m = negb (FileMetadata.isPDF m).
Proof.
  apply FileMetadata_new_Normal_iff in constructed.
  destruct constructed as [_ [Ht [_ ->]]].
  unfold FileMetadata.isImage, FileMetadata.isPDF.
  cbn [FileMetadata.mimeType].
  destruct Ht as [-> | [-> | ->]].
  - split; [| split]; [| | reflexivity].
    + split; [intros _; left; reflexivity | reflexivity].
    + split; discriminate.
  - split; [| split]; [| | reflexivity].
    + split; [intros _; right; reflexivity | reflexivity].
    + split; discriminate.
  - split; [| split]; [| | reflexivity].
    + split; [discriminate | intros [H | H]; discriminate H].
    + split; reflexivity.
Qed.

End MetadataConstructed.

Lemma FileMetadata_image_xor_pdf_witness :
  FileMetadata.new Sample.now (lit "photo.jpg") 1024000 (lit "image/jpeg")
    (lit "user-123") None
  = Normal Sample.metadata
  /\ FileMetadata.isImage Sample.metadata
     = negb (FileMetadata.isPDF Sample.metadata).
Proof.
  split; [reflexivity |].
  apply (@FileMetadata_image_xor_pdf Sample.now (lit "photo.jpg") 1024000
           (lit "image/jpeg") (lit "user-123") None Sample.metadata).
  reflexivity.
Defined.

(** ** FileMetadata: the file extension *)

Section FileExtension.

Variable toLowerCase : jsstring -> jsstring.

Lemma split_not_nil (s : jsstring) (sep : char16) : split s sep <> [].
Proof.
  destruct s as [|c s]; simpl; [discriminate |].
  destruct (N.eqb c sep); [discriminate |].
  destruct (split s sep); discriminate.
Qed.

Lemma split_without_separator (s : jsstring) (sep : char16) :
  ~ Occurs sep s -> split s sep = [s].
Proof.
  unfold Occurs. induction s as [|c s IH]; intros H; simpl.
  - reflexivity.
  - destruct (N.eqb_spec c sep) as [-> | Hne].
    + exfalso. apply H. left. reflexivity.
    + rewrite IH; [reflexivity |]. intros Hin. apply H. right. exact Hin.
Qed.

Lemma split_at_separator (stem rest : jsstring) (sep : char16) :
  split (stem ++ sep :: rest) sep = split stem sep ++ split rest sep.
Proof.
  induction stem as [|c stem IH]; simpl.
  - now rewrite N.eqb_refl.
  - destruct (N.eqb c sep).
    + now rewrite IH.
    + rewrite IH. pose proof (split_not_nil stem sep) as Hne.
      destruct (split stem sep); [contradiction | reflexivity].
Qed.

Lemma index_last (A : Type) (front : list A) (a : A) :
  index (front ++ [a]) (List.length (front ++ [a]) - 1) = object a.
Proof.
  unfold index. rewrite length_app. simpl.
  replace (List.length front + 1 - 1)%nat with (List.length front) by lia.
  rewrite nth_error_app2 by lia. rewrite Nat.sub_diag. reflexivity.
Qed.

(** X8. The extension is what follows the last [.] of the name, in lower
    case: a name without [.] has the empty extension, a name
    [stem.ext] with no [.] in [ext] has the extension [ext] lower-cased,
    and the read of the last part never goes past the end of the
    array, so the call never ends in a [TypeError]. *)
Theorem FileMetadata_extension_is_last_part (this : FileMetadata.t) :
  (~ Occurs 46%N (FileMetadata.fileName this) ->
   FileMetadata.getFileExtension toLowerCase this = Returns [])
  /\ (forall stem ext,
         FileMetadata.fileName this = stem ++ lit "." ++ ext ->
         ~ Occurs 46%N ext ->
         FileMetadata.getFileExtension toLowerCase this
         = Returns (toLowerCase ext))
  /\ FileMetadata.getFileExtension toLowerCase this <> TypeError.
Proof.
  unfold FileMetadata.getFileExtension. cbv zeta. split; [| split].
  - intros H. rewrite (@split_without_separator _ _ H). reflexivity.
  - intros stem ext E Hext. rewrite E.
    change (stem ++ lit "." ++ ext) with (stem ++ 46%N :: ext).
    rewrite split_at_separator, (@split_without_separator _ _ Hext).
    rewrite index_last, length_app. simpl.
    pose proof (split_not_nil stem 46%N) as Hne.
    destruct (split stem 46%N) as [|p ps]; [contradiction |].
    simpl. destruct (List.length ps + 1)%nat eqn:El; [lia |].
    reflexivity.
  - pose proof (split_not_nil (FileMetadata.fileName this) 46%N) as Hne.
    destruct (exists_last Hne) as [front [a ->]].
    rewrite index_last.
    destruct (1 <? _)%nat; discriminate.
Qed.

End FileExtension.

Lemma FileMetadata_extension_is_last_part_witness :
  let archive :=
    FileMetadata.mk (lit "Report.final.PDF") 1024 (lit "application/pdf")
      (lit "user-123") Sample.now in
  FileMetadata.getFileExtension Sample.ascii_lower archive
  = Returns (Sample.ascii_lower (lit "PDF"))
  /\ FileMetadata.getFileExtension Sample.ascii_lower
       (FileMetadata.mk (lit "README") 1024 (lit "application/pdf")
          (lit "user-123") Sample.now)
     = Returns [].
Proof.
  cbv zeta. split.
  - apply (FileMetadata_extension_is_last_part Sample.ascii_lower
             (FileMetadata.mk (lit "Report.final.PDF") 1024
                (lit "application/pdf") (lit "user-123") Sample.now))
      with (stem := lit "Report.final").
    + reflexivity.
    + unfold Occurs. simpl. intuition discriminate.
  - apply (FileMetadata_extension_is_last_part Sample.ascii_lower
             (FileMetadata.mk (lit "README") 1024 (lit "application/pdf")
                (lit "user-123") Sample.now)).
    unfold Occurs. simpl. intuition discriminate.
Defined.

(** ** File: runs of the transition operations *)

Section Runs.

Import FileStatus.

Lemma operation_eq_dec (a b : File.operation) : {a = b} + {a <> b}.
Proof. decide equality. Qed.

Lemma status_after_markAsUploaded (this : File.t) :
  File.status (snd (File.markAsUploaded this))
  = match File.status this with
    | PENDING => UPLOADED
    | s => s
    end.
Proof.
  rewrite markAsUploaded_cases.
  destruct (File.status this) eqn:E; simpl; congruence.
Qed.

Lemma status_after_markAsDeleted (this : File.t) :
  File.status (snd (File.markAsDeleted this)) = DELETED.
Proof.
  rewrite markAsDeleted_cases.
  destruct (File.status this) eqn:E; simpl; congruence.
Qed.

Lemma run_app (ops1 ops2 : list File.operation) (this : File.t) :
  File.run (ops1 ++ ops2) this = File.run ops2 (File.run ops1 this).
Proof.
  revert this; induction ops1 as [|op ops1 IH]; intros this; simpl;
    [reflexivity | apply IH].
Qed.

(** A call changes nothing but the status. *)
Lemma call_keeps_fields (op : File.operation) (this : File.t) :
  File.id (snd (File.call op this)) = File.id this
  /\ File.metadata (snd (File.call op this)) = File.metadata this
  /\ File.location (snd (File.call op this)) = File.location this.
Proof.
  destruct op; simpl;
    [rewrite markAsUploaded_cases | rewrite markAsDeleted_cases];
    destruct (File.status this); simpl; auto.
Qed.

(** A call that returns moves the status forward, a call that throws
    leaves it. *)
Lemma call_rank (op : File.operation) (this : File.t) :
  (if returned (fst (File.call op this)) then 1 else 0)
  + rank (File.status this)
  <= rank (File.status (snd (File.call op this))).
Proof.
  destruct op; simpl;
    [rewrite markAsUploaded_cases | rewrite markAsDeleted_cases];
    destruct (File.status this) eqn:E; simpl; try rewrite E; simpl; lia.
Qed.

Lemma rank_le_2 (s : FileStatus.t) : rank s <= 2.
Proof. destruct s; simpl; lia. Qed.

(** The status after a run, from the operations that occur in it. *)
Lemma run_status (ops : list File.operation) (this : File.t) :
  (In File.MarkAsDeleted ops -> File.status (File.run ops this) = DELETED)
  /\ (~ In File.MarkAsDeleted ops -> In File.MarkAsUploaded ops ->
      File.status (File.run ops this)
      = match File.status this with
        | DELETED => DELETED
        | _ => UPLOADED
        end)
  /\ (~ In File.MarkAsDeleted ops -> ~ In File.MarkAsUploaded ops ->
      File.run ops this = this).
Proof.
  revert this; induction ops as [|op ops IH]; intros this.
  - simpl. tauto.
  - destruct (IH (snd (File.call op this))) as [IHd [IHu IHn]].
    destruct op; simpl File.run; simpl File.call in *.
    + split; [| split].
      * intros [H | H]; [discriminate H | auto].
      * intros Hd _.
        assert (Hd' : ~ In File.MarkAsDeleted ops)
          by (intros H; apply Hd; right; exact H).
        destruct (in_dec operation_eq_dec File.MarkAsUploaded ops)
          as [Hu | Hu].
        -- rewrite (IHu Hd' Hu), status_after_markAsUploaded.
           now destruct (File.status this).
        -- rewrite (IHn Hd' Hu), status_after_markAsUploaded.
           now destruct (File.status this).
      * intros _ Hu. exfalso. apply Hu. left. reflexivity.
    + split; [| split].
      * intros _. apply run_keeps_deleted, status_after_markAsDeleted.
      * intros Hd. exfalso. apply Hd. left. reflexivity.
      * intros Hd. exfalso. apply Hd. left. reflexivity.
Qed.

(** X9. The status of a freshly created entity after any run of the
    transition operations depends only on which operations the run
    holds, not on their order or number: DELETED when [markAsDeleted] was
    called, else UPLOADED when [markAsUploaded] was called, else
    PENDING; so the entity can be downloaded exactly when it has been
    marked uploaded and never marked deleted. *)
Theorem File_status_of_fresh_entity
    (uuid : jsstring) (metadata : FileMetadata.t)
    (location : FileLocation.t) (ops : list File.operation) :
  let f := File.run ops (File.create uuid metadata location) in
  (In File.MarkAsDeleted ops -> File.status f = DELETED)
  /\ (~ In File.MarkAsDeleted ops -> In File.MarkAsUploaded ops ->
      File.status f = UPLOADED)
  /\ (~ In File.MarkAsDeleted ops -> ~ In File.MarkAsUploaded ops ->
      File.status f = PENDING)
  /\ (File.canBeDownloaded f = true
      <-> In File.MarkAsUploaded ops /\ ~ In File.MarkAsDeleted ops).
Proof.
  cbv zeta.
  destruct (run_status ops (File.create uuid metadata location))
    as [Hd [Hu Hn]].
  assert (Hdown : forall g,
             File.canBeDownloaded g = true <-> File.status g = UPLOADED).
  { intros g. unfold File.canBeDownloaded, File.status.
    destruct (File._status g); simpl; split; congruence. }
  split; [exact Hd | split; [exact Hu | split]].
  - intros H1 H2. rewrite (Hn H1 H2). reflexivity.
  - rewrite Hdown.
    destruct (in_dec operation_eq_dec File.MarkAsDeleted ops) as [Id | Id].
    { rewrite (Hd Id). split; [discriminate | tauto]. }
    destruct (in_dec operation_eq_dec File.MarkAsUploaded ops) as [Iu | Iu].
    { rewrite (Hu Id Iu). simpl. tauto. }
    rewrite (Hn Id Iu). simpl. split; [discriminate | tauto].
Qed.

(** X10. The transition operations change nothing but the status: after
    any run the entity has the id, the metadata and the location it had,
    so [belongsTo] answers as before and [equals] between two entities is
    not affected by what happened to either. *)
Theorem File_run_keeps_identity (ops : list File.operation) (f : File.t) :
  File.id (File.run ops f) = File.id f
  /\ File.metadata (File.run ops f) = File.metadata f
  /\ File.location (File.run ops f) = File.location f
  /\ (forall ownerId,
         File.belongsTo (File.run ops f) ownerId = File.belongsTo f ownerId)
  /\ (forall ops' g,
         File.equals (File.run ops f) (object (File.run ops' g))
         = File.equals f (object g)).
Proof.
  assert (H : forall ops f,
             File.id (File.run ops f) = File.id f
             /\ File.metadata (File.run ops f) = File.metadata f
             /\ File.location (File.run ops f) = File.location f).
  { clear. intros ops. induction ops as [|op ops IH]; intros f; simpl.
    - auto.
    - destruct (IH (snd (File.call op f))) as [-> [-> ->]].
      apply call_keeps_fields. }
  destruct (H ops f) as [Hi [Hm Hl]].
  split; [exact Hi | split; [exact Hm | split; [exact Hl | split]]].
  - intros ownerId. unfold File.belongsTo. now rewrite Hm.
  - intros ops' g. unfold File.equals. simpl.
    destruct (H ops' g) as [Hi' _]. now rewrite Hi, Hi'.
Qed.

(** X11. The status never goes back: along any run it only moves forward
    in the order PENDING, UPLOADED, DELETED, and an entity is PENDING
    after a run only if the run called nothing. *)
Theorem File_status_never_goes_back
    (ops1 ops2 : list File.operation) (f : File.t) :
  rank (File.status (File.run ops1 f))
  <= rank (File.status (File.run (ops1 ++ ops2) f))
  /\ (File.status (File.run ops1 f) = PENDING -> ops1 = []).
Proof.
  assert (Hmono : forall ops g,
             rank (File.status g) <= rank (File.status (File.run ops g))).
  { clear. intros ops. induction ops as [|op ops IH]; intros g; simpl.
    - lia.
    - pose proof (call_rank op g). pose proof (IH (snd (File.call op g))).
      destruct (returned _); lia. }
  split.
  - rewrite run_app. apply Hmono.
  - destruct ops1 as [|op ops]; [reflexivity |]. simpl. intros E.
    pose proof (Hmono ops (snd (File.call op f))) as Hm. rewrite E in Hm.
    exfalso. revert Hm.
    destruct op; simpl File.call;
      [rewrite status_after_markAsUploaded
      | rewrite status_after_markAsDeleted];
      try destruct (File.status f); simpl; lia.
Qed.

(** X12. At most two calls of a run return and all the others throw:
    every call that returns moves the status forward, so the number of
    calls that return is at most the distance from the status before the
    run to the status after it. *)
Theorem File_at_most_two_transitions
    (ops : list File.operation) (f : File.t) :
  List.length (filter returned (File.outcomes ops f))
  + rank (File.status f)
  <= rank (File.status (File.run ops f))
  /\ List.length (filter returned (File.outcomes ops f)) <= 2.
Proof.
  assert (H : forall ops f,
             List.length (filter returned (File.outcomes ops f))
             + rank (File.status f)
             <= rank (File.status (File.run ops f))).
  { clear. intros ops. induction ops as [|op ops IH]; intros f; simpl.
    - lia.
    - pose proof (call_rank op f). pose proof (IH (snd (File.call op f))).
      destruct (returned _); simpl; lia. }
  split; [apply H |].
  pose proof (H ops f). pose proof (rank_le_2 (File.status (File.run ops f))).
  lia.
Qed.

(** X13. A call returns exactly when it changes the status, and no
    operation returns twice in a row: whatever the entity, the second of
    two calls of the same operation throws and leaves the entity as the
    first call left it. *)
Theorem File_repeated_call_throws (op : File.operation) (f : File.t) :
  let first := File.call op f in
  let second := File.call op (snd first) in
  (returned (fst first) = true <-> File.status (snd first) <> File.status f)
  /\ returned (fst second) = false
  /\ snd second = snd first.
Proof.
  cbv zeta. destruct f as [i m l s].
  destruct op, s; simpl; repeat split; try congruence; try discriminate.
Qed.

End Runs.

Lemma File_status_of_fresh_entity_witness :
  let ops :=
    [File.MarkAsUploaded; File.MarkAsDeleted; File.MarkAsUploaded] in
  File.status (File.run ops Sample.file) = FileStatus.DELETED
  /\ File.status (File.run [File.MarkAsUploaded; File.MarkAsUploaded]
                   Sample.file)
     = FileStatus.UPLOADED.
Proof.
  cbv zeta. split.
  - apply (File_status_of_fresh_entity Sample.uuid Sample.metadata
             Sample.location
             [File.MarkAsUploaded; File.MarkAsDeleted; File.MarkAsUploaded]).
    simpl. auto.
  - apply (File_status_of_fresh_entity Sample.uuid Sample.metadata
             Sample.location [File.MarkAsUploaded; File.MarkAsUploaded]).
    + simpl. intuition discriminate.
    + simpl. auto.
Defined.

(** ** File: ownership and the serialization view *)

Section Ownership.

(** X14. An entity belongs to one owner only, the owner named in its
    metadata: [belongsTo] is true for that identifier and for no other,
    so two identifiers it accepts are the same. *)
Theorem File_belongs_to_one_owner (f : File.t) (a b : jsstring) :
  (File.belongsTo f a = true
   <-> a = FileMetadata.ownerId (File.metadata f))
  /\ (File.belongsTo f a = true -> File.belongsTo f b = true -> a = b).
Proof.
  unfold File.belongsTo. rewrite !strict_eq_iff. split.
  - split; congruence.
  - congruence.
Qed.

(** X15. An entity built from constructed value objects can be rebuilt
    from its serialization view: the constructors accept the fields of
    the view again and return the location and, given the timestamp, the
    metadata of the entity, and [reconstitute] with them, the id and the
    status of the view gives the entity back. *)
Theorem File_rebuilt_from_view
    (f : File.t) (container path : jsstring)
    (now : Date.t) (fileName : jsstring) (fileSize : number)
    (mimeType ownerId : jsstring) (uploadedAt : option Date.t) :
  FileLocation.new container path = Normal (File.location f) ->
  FileMetadata.new now fileName fileSize mimeType ownerId uploadedAt
  = Normal (File.metadata f) ->
  let view := File.toObject f in
  FileLocation.new (File.plain_container view) (File.plain_path view)
  = Normal (File.location f)
  /\ (forall clock,
         FileMetadata.new clock (File.plain_fileName view)
           (File.plain_fileSize view) (File.plain_mimeType view)
           (File.plain_ownerId view)
           (Some (FileMetadata.uploadedAt (File.metadata f)))
         = Normal (File.metadata f))
  /\ (forall st,
         FileStatus.value st = File.plain_status view ->
         File.reconstitute (File.plain_id view) (File.metadata f)
           (File.location f) st
         = f).
Proof.
  intros Hl Hm. cbv zeta.
  pose proof (@FileLocation_new_Normal _ _ _ Hl) as [El _].
  pose proof (proj1 (FileMetadata_new_Normal_iff _ _ _ _ _ _ _) Hm)
    as [Hs [Ht [Hn Em]]].
  destruct f as [i m l s]. simpl in *.
  split; [| split].
  - rewrite El in Hl |- *. exact Hl.
  - intros clock. apply FileMetadata_new_Normal_iff.
    rewrite Em. simpl. auto.
  - intros st E. apply FileStatus_value_injective in E. now subst st.
Qed.

(** X16. The serialization view loses nothing but, at most, the
    timestamp, which it holds as a string: two entities with one view and
    one timestamp are the same entity, field by field. *)
Theorem File_view_determines_entity (f g : File.t) :
  File.toObject f = File.toObject g ->
  FileMetadata.uploadedAt (File.metadata f)
  = FileMetadata.uploadedAt (File.metadata g) ->
  f = g.
Proof.
  destruct f as [fi [fn fs ft fo fd] [fc fp] fst].
  destruct g as [gi [gn gs gt go gd] [gc gp] gst].
  unfold File.toObject. simpl. intros E Ed.
  inversion E. subst.
  match goal with
  | H : FileStatus.value _ = FileStatus.value _ |- _ =>
      apply FileStatus_value_injective in H; subst
  end.
  reflexivity.
Qed.

End Ownership.

Lemma File_rebuilt_from_view_witness :
  let view := File.toObject Sample.file in
  FileLocation.new (lit "my-bucket") (lit "uploads/user-123/photo.jpg")
  = Normal Sample.location
  /\ FileMetadata.new Sample.now (lit "photo.jpg") 1024000
       (lit "image/jpeg") (lit "user-123") None
     = Normal Sample.metadata
  /\ FileLocation.new (File.plain_container view) (File.plain_path view)
     = Normal Sample.location
  /\ File.reconstitute (File.plain_id view) Sample.metadata Sample.location
       FileStatus.PENDING
     = Sample.file.
Proof.
  cbv zeta.
  destruct (@File_rebuilt_from_view Sample.file (lit "my-bucket")
              (lit "uploads/user-123/photo.jpg") Sample.now
              (lit "photo.jpg") 1024000 (lit "image/jpeg")
              (lit "user-123") None eq_refl eq_refl) as [Hl [_ Hr]].
  split; [reflexivity | split; [reflexivity | split; [exact Hl |]]].
  apply Hr. reflexivity.
Defined.

Lemma File_view_determines_entity_witness :
  let uploaded := snd (File.markAsUploaded Sample.file) in
  let rebuilt :=
    File.reconstitute Sample.uuid Sample.metadata Sample.location
      FileStatus.UPLOADED in
  File.toObject uploaded = File.toObject rebuilt /\ uploaded = rebuilt.
Proof.
  cbv zeta. split; [reflexivity |].
  apply (@File_view_determines_entity
           (snd (File.markAsUploaded Sample.file))
           (File.reconstitute Sample.uuid Sample.metadata Sample.location
              FileStatus.UPLOADED)).
  - reflexivity.
  - reflexivity.
Defined.
